(** * DailySpark icon generators: a shallow embedding

    Two scripts are modelled:
    - [scripts/generate-icons.py]        (the vector variant, module [Vector]);
    - [scripts/generate-simple-icons.py] (the procedural variant, module [Simple]).

    Both are straight-line batches of file-system and image-library calls.
    The image library (Pillow, cairosvg) is outside the repository: images
    are kept as the term of library calls that built them, file contents as
    the term of the call that encoded them, and every call that can raise
    asks an oracle of the environment whether it does. *)

From Stdlib Require Import ZArith List Bool Ascii String Reals Lra Lia.
From stdpp Require Import base gmap sets strings list.

Local Open Scope string_scope.
Local Open Scope list_scope.
Local Open Scope Z_scope.

(** ** Python float arithmetic used by the drawing code

    [int(size * 0.35)] multiplies in binary64 and truncates.  Only products
    of a non-negative integer by a positive constant occur, so a float is a
    pair mantissa/exponent with value [mant * 2^expo]; rounding is to 53
    significant bits, ties to even.  Overflow and subnormals are out of
    reach of image sizes and are not modelled. *)
Module PyFloat.

Record float := mk { mant : Z; expo : Z }.

(** round [m * 2^e] to nearest-even on 53 significant bits *)
Definition round53 (m e : Z) : float :=
  let l := Z.log2 m in
  if l <? 53 then mk m e
  else
    let k := l - 52 in
    let q := m / 2 ^ k in
    let r := m mod 2 ^ k in
    let half := 2 ^ (k - 1) in
    let q' := if (half <? r) || ((r =? half) && Z.odd q) then q + 1 else q in
    mk q' (e + k).

(** [float(n)] for [0 <= n] *)
Definition of_int (n : Z) : float := round53 n 0.

(** [a * b] *)
Definition mul (a b : float) : float :=
  round53 (mant a * mant b) (expo a + expo b).

(** [int(a)] for [0 <= a]: truncation *)
Definition trunc (a : float) : Z :=
  if 0 <=? expo a then mant a * 2 ^ expo a else mant a / 2 ^ (- expo a).

(** the literals of the source, as binary64 *)
Definition c0_35 : float := mk 6305039478318694 (-54).
Definition c0_5  : float := mk 4503599627370496 (-53).
Definition c0_12 : float := mk 8646911284551352 (-56).
Definition c0_25 : float := mk 4503599627370496 (-54).
Definition c0_06 : float := mk 8646911284551352 (-57).

(** [int(n * c)] for a Python int [n] and a float literal [c] *)
Definition int_mul (n : Z) (c : float) : Z :=
  Z.sgn n * trunc (mul (of_int (Z.abs n)) c).

End PyFloat.

(** ** Coordinates

    [math.cos] and [math.sin] are kept symbolic: a coordinate is either a
    Python int or [c + r * f(deg * (math.pi / 180)) + off]. *)
Inductive trig := Cos | Sin.

Inductive num :=
| Int (n : Z)
| Polar (c r : Z) (f : trig) (deg : Z) (off : Z).

Definition point : Type := num * num.

(** The value of a coordinate, with the trigonometric functions taken on
    the reals. *)
Definition num_R (a : num) : R :=
  match a with
  | Int n => IZR n
  | Polar c r f deg off =>
      let angle := (IZR deg * (PI / 180))%R in
      (IZR c + IZR r * (match f with Cos => cos angle | Sin => sin angle end)
       + IZR off)%R
  end.

(** squared Euclidean distance of a point from [(cx, cy)] *)
Definition dist2 (p : point) (cx cy : Z) : R :=
  ((num_R (fst p) - IZR cx) * (num_R (fst p) - IZR cx)
   + (num_R (snd p) - IZR cy) * (num_R (snd p) - IZR cy))%R.

(** ** Geometry of [draw_sparkle_star] *)
Definition center (size : Z) : Z := size / 2.
Definition star_radius (size : Z) : Z := PyFloat.int_mul size PyFloat.c0_35.
Definition highlight_r (size : Z) : Z := PyFloat.int_mul size PyFloat.c0_12.
Definition sparkle_radius (size : Z) : Z := PyFloat.int_mul size PyFloat.c0_25.
Definition dot_size (size : Z) : Z := PyFloat.int_mul size PyFloat.c0_06.

(** the body of [for i in range(8)] *)
Definition star_point (size i : Z) : point :=
  let deg := i * 45 - 90 in
  let is_main_point := (i mod 2 =? 0) in
  let radius :=
    if is_main_point then star_radius size
    else PyFloat.int_mul (star_radius size) PyFloat.c0_5 in
  (Polar (center size) radius Cos deg 0, Polar (center size) radius Sin deg 0).

Definition star_points (size : Z) : list point :=
  map (star_point size) (seqZ 0 8).

(** ** Images, files and the disk *)
Inductive color :=
| RGB (r g b : Z)
| RGBA (r g b a : Z).

Inductive shape :=
| Polygon (points : list point) (fill outline : color)
| Ellipse (p0 p1 : point) (fill : color).

Inductive resampling := LANCZOS.

(** An image is the term of the library calls that made it. *)
Inductive image :=
| New (w h : Z) (bg : color)                 (* Image.new('RGBA', (w, h), bg) *)
| Rasterized (svg : string) (w h : Z)        (* cairosvg.svg2png(..., w, h) *)
| Resized (src : image) (w h : Z) (f : resampling)
                                   (* src resampled to (w, h) with filter f *)
| Drawn (src : image) (s : shape).           (* a shape drawn onto src *)

Fixpoint width (im : image) : Z :=
  match im with
  | New w _ _ | Rasterized _ w _ | Resized _ w _ _ => w
  | Drawn src _ => width src
  end.

Fixpoint height (im : image) : Z :=
  match im with
  | New _ h _ | Rasterized _ _ h | Resized _ _ h _ => h
  | Drawn src _ => height src
  end.

(** What [im.resize((w, h), Image.Resampling.LANCZOS)] returns.  Pillow
    resamples only when the size changes: asked for the size the image
    already has, [resize] returns a copy of the image, pixel for pixel. *)
Definition resized (im : image) (w h : Z) : image :=
  if (width im =? w) && (height im =? h) then im else Resized im w h LANCZOS.

Inductive format := ICO | PNG.

(** What a file holds: text (a vector source, or anything the scripts did
    not write), an image encoded by a [save] call with its keyword
    arguments ([optimize] is Pillow's default [False] when not passed,
    [sizes] is [None] when not passed), or what is left of a file by a
    [save] call that failed after it had opened the file for writing. *)
Inductive content :=
| Text (s : string)
| Encoded (fmt : format) (im : image) (optimize : bool)
          (sizes : option (list (Z * Z)))
| Partial (fmt : format) (im : image).

Record disk := Disk { files : gmap string content; dirs : gset string }.

(** [Path.exists()] *)
Definition path_exists (d : disk) (p : string) : bool :=
  match files d !! p with
  | Some _ => true
  | None => bool_decide (p ∈ dirs d)
  end.

(** What a [save] that raised leaves at its path.  Pillow's [save] opens
    the file with mode [w+b], which empties it, and only then encodes the
    image into it; when the encoder raises, a file that the call created is
    removed again, and a file that was there before is left with what had
    been written.  A [save] that raises before it opened the file changes
    nothing. *)
Definition spoil (opened : bool) (p : string) (fmt : format) (im : image)
    (f : gmap string content) : gmap string content :=
  if opened then
    match f !! p with
    | Some _ => <[p := Partial fmt im]> f
    | None => f
    end
  else f.

(** ** Calls, exceptions, console

    [Import] and [Load] are the two steps of an [import] statement: finding
    the module, and running its code.  [Write] is no call of its own: it
    asks, of a [save] that raises, whether it does so while writing into
    the file, see [save] below. *)
Inductive call :=
| Import (module : string)
| Load (module : string)
| Mkdir (p : string)
| Exists (p : string)
| Svg2png (url write_to : string) (w h : Z)
| Open (p : string)
| ImageNew (w h : Z)
| ImageDraw
| Draw (s : shape)
| Resize (w h : Z)
| Save (p : string) (fmt : format)
| Write (p : string) (fmt : format)
| Unlink (p : string)
| Stat (p : string).

(** An exception remembers the call that raised it. *)
Inductive exn := Raised (c : call).

(** [except ImportError]: the exception of an import that found no module.
    What a module raises while it is loaded ([OSError] from cairosvg when
    the native cairo library is missing) is no [ImportError]. *)
Definition is_ImportError (e : exn) : bool :=
  match e with Raised (Import _) => true | _ => false end.

(** [except Exception]: every exception a call raises *)
Definition is_Exception (e : exn) : bool := true.

(** Lines printed on standard output; the text of each is in the comment. *)
Inductive line :=
| MissingDependencies        (* "Missing dependencies. Install with:" *)
| PipInstall                 (* "   pip install pillow cairosvg" *)
| GeneratingFromSvg          (* "Generating favicon and icons from SVG..." *)
| Generating                 (* "Generating favicon and icons..." *)
| NotFound (p : string)      (* f"Error: {SVG_SOURCE} not found" *)
| Rendered (p : string)      (* f"Rendered SVG to {temp_png}" *)
| Generated (filename : string) (w h : Z)
                             (* f"Generated {filename} ({width}x{height})" *)
| GeneratedKB (filename : string) (w h : Z) (c : option content)
                             (* the same followed by the size of the file *)
| CleanedUp                  (* "Cleaned up temporary files" *)
| AllGenerated               (* "All icons generated successfully!" *)
| GeneratedFiles             (* "Generated files:" / "Generated files in public/:" *)
| Report (filename : string) (c : option content)
                             (* f"   {filename:<35} ({size:.1f} KB)" *)
| Listed (s : string)        (* a fixed line of the closing list *)
| Error (e : exn).           (* f"Error: {e}" *)

Record state := State {
  fs : disk;
  stdout : list line;
  stderr : list exn;      (* tracebacks *)
  trace : list call       (* every call attempted, in order *)
}.

Inductive result (A : Type) :=
| Ok (a : A) (s : state)
| Raise (e : exn) (s : state)
| Exit (code : Z) (s : state).
Arguments Ok {A}.
Arguments Raise {A}.
Arguments Exit {A}.

Definition M (A : Type) : Type := state -> result A.

Definition ret {A} (a : A) : M A := fun s => Ok a s.

Definition bind {A B} (m : M A) (k : A -> M B) : M B :=
  fun s => match m s with
           | Ok a s' => k a s'
           | Raise e s' => Raise e s'
           | Exit c s' => Exit c s'
           end.

Declare Scope py_scope.
Delimit Scope py_scope with py.
Notation "x <- m ;; k" := (bind m (fun x => k))
  (at level 100, m at next level, right associativity) : py_scope.
Notation "m ;; k" := (bind m (fun _ => k))
  (at level 100, right associativity) : py_scope.
Local Open Scope py_scope.

(** [exit(code)]: [SystemExit] is not an [Exception], no handler of the
    scripts catches it *)
Definition exit {A} (code : Z) : M A := fun s => Exit code s.

Definition raise {A} (e : exn) : M A := fun s => Raise e s.

Definition print (l : line) : M unit :=
  fun s => Ok tt (State (fs s) (stdout s ++ [l]) (stderr s) (trace s)).

Definition print_exc (e : exn) : M unit :=
  fun s => Ok tt (State (fs s) (stdout s) (stderr s ++ [e]) (trace s)).

Definition log (c : call) : M unit :=
  fun s => Ok tt (State (fs s) (stdout s) (stderr s) (trace s ++ [c])).

Definition get_fs : M disk := fun s => Ok (fs s) s.

Definition put_files (f : gmap string content) : M unit :=
  fun s => Ok tt (State (Disk f (dirs (fs s))) (stdout s) (stderr s) (trace s)).

Definition put_dirs (ds : gset string) : M unit :=
  fun s => Ok tt (State (Disk (files (fs s)) ds) (stdout s) (stderr s) (trace s)).

(** [try: body  except E: handler], [E] given by [catches] *)
Definition try_except {A} (body : M A) (catches : exn -> bool)
    (handler : exn -> M A) : M A :=
  fun s => match body s with
           | Raise e s' => if catches e then handler e s' else Raise e s'
           | r => r
           end.

(** [for x in l: body x] *)
Fixpoint for_each {X} (l : list X) (body : X -> M unit) : M unit :=
  match l with
  | [] => ret tt
  | x :: l' => body x ;; for_each l' body
  end.

(** [for x in l: acc = body acc x] *)
Fixpoint for_fold {X A} (l : list X) (acc : A) (body : A -> X -> M A) : M A :=
  match l with
  | [] => ret acc
  | x :: l' => acc' <- body acc x ;; for_fold l' acc' body
  end.

(** [s.endswith(suffix)] *)
Definition endswith (s suffix : string) : bool :=
  let n := String.length s in
  let k := String.length suffix in
  (k <=? n)%nat && String.eqb (substring (n - k) k s) suffix.

(** ** Paths

    [pathlib] keeps a path as its components.  A path string is split at
    the slashes, and empty components and [.] are dropped ([..] is kept);
    a leading slash makes the path absolute, two leading slashes, and two
    only, are kept as they are. *)
Fixpoint split_slash (s cur : string) : list string :=
  match s with
  | EmptyString => [cur]
  | String c rest =>
      if Ascii.eqb c "/"%char then cur :: split_slash rest ""
      else split_slash rest (cur +:+ String c "")
  end.

Definition components (s : string) : list string :=
  List.filter (fun x => negb (String.eqb x "") && negb (String.eqb x "."))
              (split_slash s "").

Definition root_of (s : string) : string :=
  match s with
  | String "/"%char (String "/"%char (String "/"%char _)) => "/"
  | String "/"%char (String "/"%char _) => "//"
  | String "/"%char _ => "/"
  | _ => ""
  end.

(** [str(path)] *)
Definition render (root : string) (parts : list string) : string :=
  match root, parts with
  | EmptyString, [] => "."
  | _, _ => root +:+ String.concat "/" parts
  end.

(** [dir / name] on [pathlib] paths: the components of [name] follow those
    of [dir], unless [name] is absolute, which then replaces [dir] *)
Definition path_join (dir name : string) : string :=
  match root_of name with
  | EmptyString => render (root_of dir) (components dir ++ components name)
  | root => render root (components name)
  end.
Infix "</>" := path_join (at level 40, left associativity).

(** ** The calls of the scripts

    [raises] is the environment: [raises c = true] when the call [c] raises
    (a module that is not installed, a malformed vector source, a disk
    error, a file where a directory is to be made, ...).  A call also
    raises when the disk lacks what it reads. *)
Section Calls.
Variable raises : call -> bool.

(** a call is logged when attempted, and raises when the environment
    says so *)
Definition attempt (c : call) : M unit :=
  log c ;; if raises c then raise (Raised c) else ret tt.

(** [import module] / [from module import name].  The module is found,
    with the modules it imports, or the statement raises an [ImportError];
    the module's code is then run, and can raise anything else. *)
Definition import (module : string) : M unit :=
  attempt (Import module) ;; attempt (Load module).

(** the directories [ROOT / a / b / ...] names, outermost first *)
Fixpoint ancestors (base : option string) (parts : list string) : list string :=
  match parts with
  | [] => []
  | x :: rest =>
      let p := match base with None => x | Some b => b </> x end in
      p :: ancestors (Some p) rest
  end.

(** [(ROOT / a / b).mkdir(parents=True, exist_ok=True)].  Whether the call
    raises is the environment's to tell, also when the reason is on the
    disk (a file standing where a directory is to be made): the disk a
    call that did not raise leaves is modelled, not the test it made. *)
Definition mkdir (parts : list string) : M unit :=
  let created := ancestors None parts in
  attempt (Mkdir (List.last created "")) ;;
  d <- get_fs ;;
  put_dirs (list_to_set created ∪ dirs d).

(** [p.exists()] *)
Definition exists_ (p : string) : M bool :=
  log (Exists p) ;;
  d <- get_fs ;;
  ret (path_exists d p).

(** [cairosvg.svg2png(url=, write_to=, output_width=, output_height=)] *)
Definition svg2png (url write_to : string) (w h : Z) : M unit :=
  attempt (Svg2png url write_to w h) ;;
  d <- get_fs ;;
  match files d !! url with
  | Some (Text svg) =>
      put_files (<[write_to := Encoded PNG (Rasterized svg w h) false None]> (files d))
  | _ => raise (Raised (Svg2png url write_to w h))
  end.

(** [Image.open(p)] *)
Definition Image_open (p : string) : M image :=
  attempt (Open p) ;;
  d <- get_fs ;;
  match files d !! p with
  | Some (Encoded _ im _ _) => ret im
  | _ => raise (Raised (Open p))
  end.

(** [Image.new('RGBA', (w, h), bg)] *)
Definition Image_new (w h : Z) (bg : color) : M image :=
  attempt (ImageNew w h) ;;
  if (w <? 0) || (h <? 0) then raise (Raised (ImageNew w h))
  else ret (New w h bg).

(** [ImageDraw.Draw(image)] *)
Definition ImageDraw_Draw (im : image) : M unit := attempt ImageDraw.

(** [draw.polygon(...)], [draw.ellipse(...)]: the image is changed in
    place; the changed image is returned and replaces it *)
Definition draw (im : image) (s : shape) : M image :=
  attempt (Draw s) ;; ret (Drawn im s).

(** [im.resize((w, h), Image.Resampling.LANCZOS)] *)
Definition resize (im : image) (w h : Z) : M image :=
  attempt (Resize w h) ;; ret (resized im w h).

(** [im.save(p, fmt, optimize=, sizes=)].  It is not atomic: when it raises,
    the environment tells by [raises (Write p fmt)] whether the file had
    been opened for writing, and the file is left as [spoil] says. *)
Definition save (im : image) (p : string) (fmt : format) (optimize : bool)
    (sizes : option (list (Z * Z))) : M unit :=
  d <- get_fs ;;
  try_except (attempt (Save p fmt)) is_Exception
    (fun e =>
       put_files (spoil (raises (Write p fmt)) p fmt im (files d)) ;;
       raise e) ;;
  put_files (<[p := Encoded fmt im optimize sizes]> (files d)).

(** [p.unlink()] *)
Definition unlink (p : string) : M unit :=
  attempt (Unlink p) ;;
  d <- get_fs ;;
  match files d !! p with
  | Some _ => put_files (delete p (files d))
  | None => raise (Raised (Unlink p))
  end.

(** [p.stat()]: what the size is taken of ([None] for a directory) *)
Definition stat (p : string) : M (option content) :=
  attempt (Stat p) ;;
  d <- get_fs ;;
  if path_exists d p then ret (files d !! p) else raise (Raised (Stat p)).

End Calls.

(** How a process ends: its exit status and what it leaves behind.  An
    exception nobody caught prints its traceback and gives status 1. *)
Record outcome := Outcome { exit_code : Z; final : state }.

Definition run_from (d : disk) (main : M unit) : outcome :=
  match main (State d [] [] []) with
  | Ok _ s => Outcome 0 s
  | Exit code s => Outcome code s
  | Raise e s =>
      Outcome 1 (State (fs s) (stdout s) (stderr s ++ [e]) (trace s))
  end.

(** ** [scripts/generate-icons.py]: icons from the vector source.
    Paths are relative to [ROOT]. *)
Module Vector.

Definition SVG_SOURCE : string := "public" </> "favicon.svg".
Definition PUBLIC_DIR : string := "public".
Definition ICONS_DIR : list string := ["public"; "icons"].

Definition SIZES : list (string * (Z * Z)) :=
  [ ("favicon.ico", (64, 64));
    ("icons/apple-touch-icon.png", (180, 180));
    ("icons/icon-192x192.png", (192, 192));
    ("icons/icon-512x512.png", (512, 512)) ].

Definition temp_png : string := PUBLIC_DIR </> "temp_icon.png".

Section Script.
Variable raises : call -> bool.

(** lines 10-16 *)
Definition imports : M unit :=
  try_except
    (import raises "PIL" ;; import raises "cairosvg")
    is_ImportError
    (fun _ => print MissingDependencies ;; print PipInstall ;; exit 1).

(** lines 55-68: one turn of the loop over [SIZES.items()] *)
Definition generate (base_img : image) (entry : string * (Z * Z)) : M unit :=
  let '(filename, (width, height)) := entry in
  let output_path := PUBLIC_DIR </> filename in
  resized <- resize raises base_img width height ;;
  (if endswith filename ".ico"
   then save raises resized output_path ICO false (Some [(width, height)])
   else save raises resized output_path PNG true None) ;;
  print (Generated filename width height).

(** lines 75-79: one turn of the closing loop over [SIZES.keys()] *)
Definition report (filename : string) : M unit :=
  let path := PUBLIC_DIR </> filename in
  b <- exists_ path ;;
  if b then size <- stat raises path ;; print (Report filename size)
  else ret tt.

(** lines 42-79: the [try] block *)
Definition body : M unit :=
  svg2png raises SVG_SOURCE temp_png 512 512 ;;
  print (Rendered temp_png) ;;
  base_img <- Image_open raises temp_png ;;
  for_each SIZES (generate base_img) ;;
  unlink raises temp_png ;;
  print CleanedUp ;;
  print AllGenerated ;;
  print GeneratedFiles ;;
  for_each (map fst SIZES) report.

(** the module, top to bottom *)
Definition main : M unit :=
  imports ;;
  mkdir raises ICONS_DIR ;;
  print GeneratingFromSvg ;;
  found <- exists_ SVG_SOURCE ;;
  if negb found then print (NotFound SVG_SOURCE) ;; exit 1
  else
    try_except body is_Exception
      (fun e => print (Error e) ;; exit 1).

Definition run (d : disk) : outcome := run_from d main.

End Script.
End Vector.

(** ** [scripts/generate-simple-icons.py]: icons drawn with Pillow only.
    Paths are relative to [ROOT]. *)
Module Simple.

Definition PUBLIC_DIR : string := "public".
Definition ICONS_DIR : list string := ["public"; "icons"].

Definition main_color : color := RGB 16 185 129.
Definition gold_color : color := RGB 251 191 36.
Definition white : color := RGB 255 255 255.

Definition sizes : list (string * Z) :=
  [ ("favicon.ico", 64);
    ("icons/icon-192x192.png", 192);
    ("icons/apple-touch-icon.png", 180) ].

Section Script.
Variable raises : call -> bool.

(** lines 62-71: one turn of the loop over the dot angles *)
Definition sparkle_dot (size : Z) (img : image) (angle : Z) : M image :=
  let x off := Polar (center size) (sparkle_radius size) Cos angle off in
  let y off := Polar (center size) (sparkle_radius size) Sin angle off in
  draw raises img
    (Ellipse (x (- dot_size size), y (- dot_size size))
             (x (dot_size size), y (dot_size size))
             gold_color).

(** lines 20-73 *)
Definition draw_sparkle_star (size : Z) (given : option image) : M image :=
  img <- match given with
         | None => Image_new raises size size (RGBA 0 0 0 0)
         | Some im => ret im
         end ;;
  ImageDraw_Draw raises img ;;
  let points := star_points size in
  img <- draw raises img (Polygon points main_color main_color) ;;
  img <- draw raises img
           (Ellipse (Int (center size - highlight_r size),
                     Int (center size - highlight_r size))
                    (Int (center size + highlight_r size),
                     Int (center size + highlight_r size))
                    white) ;;
  img <- for_fold [45; 135; 225; 315] img (sparkle_dot size) ;;
  ret img.

(** lines 93-106: one turn of the loop over [sizes.items()] *)
Definition generate (base_image : image) (entry : string * Z) : M unit :=
  let '(filename, size) := entry in
  resized <- resize raises base_image size size ;;
  let output_path := PUBLIC_DIR </> filename in
  (if endswith filename ".ico"
   then save raises resized output_path ICO false None
   else save raises resized output_path PNG false None) ;;
  file_size <- stat raises output_path ;;
  print (GeneratedKB filename size size file_size).

(** lines 78-113: the [try] block *)
Definition body : M unit :=
  let base_size := 512 in
  base_image <- draw_sparkle_star base_size None ;;
  save raises base_image (PUBLIC_DIR </> "icons" </> "icon-512x512.png")
       PNG false None ;;
  print (Generated "icons/icon-512x512.png" 512 512) ;;
  for_each sizes (generate base_image) ;;
  print AllGenerated ;;
  print GeneratedFiles ;;
  print (Listed "favicon.ico (64x64)") ;;
  print (Listed "icons/icon-192x192.png (192x192)") ;;
  print (Listed "icons/apple-touch-icon.png (180x180)") ;;
  print (Listed "icons/icon-512x512.png (512x512)").

(** the module, top to bottom; the import at line 7 has no handler *)
Definition main : M unit :=
  import raises "PIL" ;;
  mkdir raises ICONS_DIR ;;
  print Generating ;;
  try_except body is_Exception
    (fun e => print (Error e) ;; print_exc e ;; exit 1).

Definition run (d : disk) : outcome := run_from d main.

End Script.
End Simple.

(** ** Both variants *)
Inductive variant := VectorVariant | SimpleVariant.

Definition run (v : variant) : (call -> bool) -> disk -> outcome :=
  match v with
  | VectorVariant => Vector.run
  | SimpleVariant => Simple.run
  end.

(** the image libraries each variant imports *)
Definition dependencies (v : variant) : list string :=
  match v with
  | VectorVariant => ["PIL"; "cairosvg"]
  | SimpleVariant => ["PIL"]
  end.

(** what the imports of each variant attempt, in order: each library is
    found, then loaded *)
Definition import_steps (v : variant) : list call :=
  flat_map (fun module => [Import module; Load module]) (dependencies v).

(** the paths of the size table, under [ROOT] *)
Definition outputs : list string :=
  map (fun entry => Vector.PUBLIC_DIR </> fst entry) Vector.SIZES.

Definition is_import (c : call) : bool :=
  match c with Import _ | Load _ => true | _ => false end.

(** the calls made inside the [try] block of either script *)
Definition in_try (c : call) : bool :=
  match c with
  | Import _ | Load _ | Mkdir _ | Exists _ => false
  | _ => true
  end.

(** checks of the input and calls that make or change an image *)
Definition reads_or_draws (c : call) : bool :=
  match c with
  | Exists _ | Svg2png _ _ _ _ | Open _ | ImageNew _ _ | ImageDraw | Draw _
  | Resize _ _ => true
  | _ => false
  end.

(** [a] is attempted, and [b] later, in [t] *)
Definition precedes (a b : call) (t : list call) : Prop :=
  exists pre post, t = pre ++ a :: post /\ b ∈ post.

(** no [resize] took part in making the image *)
Fixpoint never_resized (im : image) : bool :=
  match im with
  | New _ _ _ | Rasterized _ _ _ => true
  | Resized _ _ _ _ => false
  | Drawn src _ => never_resized src
  end.

(** Environments and disks used as examples. *)
Definition all_fine : call -> bool := fun _ => false.

Definition malformed_source : call -> bool :=
  fun c => match c with Svg2png _ _ _ _ => true | _ => false end.

Definition nothing_installed : call -> bool :=
  fun c => match c with Import _ => true | _ => false end.

(** Pillow is installed, cairosvg is not *)
Definition cairosvg_missing : call -> bool :=
  fun c => match c with Import m => String.eqb m "cairosvg" | _ => false end.

(** both are installed, but cairosvg finds no native cairo library when it
    is loaded *)
Definition cairo_missing : call -> bool :=
  fun c => match c with Load m => String.eqb m "cairosvg" | _ => false end.

Definition disk_full_at_192 : call -> bool :=
  fun c => match c with
           | Save p _ => String.eqb p "public/icons/icon-192x192.png"
           | _ => false
           end.

Definition empty_disk : disk := Disk ∅ ∅.

Definition disk_with_source : disk :=
  Disk {[ "public/favicon.svg" := Text "<svg/>" ]} ∅.

(** a property of an outcome, kept folded while the run is evaluated *)
Definition holds (P : outcome -> Prop) (o : outcome) : Prop := P o.

#[global] Instance trig_eq_dec : EqDecision trig.
Proof. solve_decision. Defined.
#[global] Instance num_eq_dec : EqDecision num.
Proof. solve_decision. Defined.
#[global] Instance color_eq_dec : EqDecision color.
Proof. solve_decision. Defined.
#[global] Instance shape_eq_dec : EqDecision shape.
Proof. solve_decision. Defined.
#[global] Instance format_eq_dec : EqDecision format.
Proof. solve_decision. Defined.
#[global] Instance call_eq_dec : EqDecision call.
Proof. solve_decision. Defined.

(** ** Further definitions, for the properties beyond the claims *)
(** ** What was drawn on an image *)

(** the shapes drawn onto an image since it was made, first to last *)
Fixpoint drawn_shapes (im : image) : list shape :=
  match im with
  | Drawn src s => drawn_shapes src ++ [s]
  | _ => []
  end.

(** the points a shape is given by: the vertices of a polygon, the two
    corners of the bounding box of an ellipse *)
Definition shape_points (s : shape) : list point :=
  match s with
  | Polygon points _ _ => points
  | Ellipse p0 p1 _ => [p0; p1]
  end.

(** a point lies on a square canvas of the given size *)
Definition on_canvas (size : Z) (p : point) : Prop :=
  (0 <= num_R (fst p) <= IZR size)%R /\ (0 <= num_R (snd p) <= IZR size)%R.

(** the colour a shape is filled with *)
Definition fill_of (s : shape) : color :=
  match s with
  | Polygon _ fill _ => fill
  | Ellipse _ _ fill => fill
  end.

(** the state a computation ends in, however it ends *)
Definition state_of {A} (r : result A) : state :=
  match r with
  | Ok _ s => s
  | Raise _ s => s
  | Exit _ s => s
  end.

(** calls that make an image or draw on one *)
Definition is_drawing (c : call) : bool :=
  match c with
  | ImageNew _ _ | ImageDraw | Draw _ => true
  | _ => false
  end.

(** a line that tells of a failure *)
Definition is_failure_line (l : line) : bool :=
  match l with
  | PipInstall | NotFound _ | Error _ => true
  | _ => false
  end.

(** an environment in which resizing to 32x32 fails *)
Definition resize_32_fails : call -> bool :=
  fun c => match c with Resize 32 32 => true | _ => false end.

(** an environment in which the 192x192 file cannot be written to the
    end *)
Definition write_fails_at_192 : call -> bool :=
  fun c => match c with
           | Save p _ | Write p _ =>
               String.eqb p "public/icons/icon-192x192.png"
           | _ => false
           end.

(** an environment in which every [stat] fails *)
Definition stat_fails : call -> bool :=
  fun c => match c with Stat _ => true | _ => false end.

(** * Evaluating a run

    The monad unfolds when applied to a state; [attempt] stays folded, and
    each attempted call is settled by a case on the environment. *)
Arguments bind {A B} m k _ /.
Arguments ret {A} a _ /.
Arguments exit {A} code _ /.
Arguments raise {A} e _ /.
Arguments print l _ /.
Arguments print_exc e _ /.
Arguments log c _ /.
Arguments get_fs _ /.
Arguments put_files f _ /.
Arguments put_dirs ds _ /.
Arguments try_except {A} body catches handler _ /.
Arguments import raises module _ /.
Arguments mkdir raises parts _ /.
Arguments exists_ p _ /.
Arguments svg2png raises url write_to w h _ /.
Arguments Image_open raises p _ /.
Arguments Image_new raises w h bg _ /.
Arguments ImageDraw_Draw raises im _ /.
Arguments draw raises im s _ /.
Arguments resize raises im w h _ /.
Arguments save raises im p fmt optimize sizes _ /.
Arguments unlink raises p _ /.
Arguments stat raises p _ /.
Arguments run_from d main /.
Arguments path_join : simpl never.
Arguments resized : simpl never.
Arguments spoil : simpl never.
Arguments run v /.
Arguments Vector.run raises d /.
Arguments Vector.main raises _ /.
Arguments Vector.imports raises _ /.
Arguments Vector.body raises _ /.
Arguments Vector.generate raises base_img entry _ /.
Arguments Vector.report raises filename _ /.
Arguments Simple.run raises d /.
Arguments Simple.main raises _ /.
Arguments Simple.body raises _ /.
Arguments Simple.generate raises base_image entry _ /.
Arguments Simple.draw_sparkle_star raises size given _ /.
Arguments Simple.sparkle_dot raises size img angle _ /.

Lemma attempt_raises raises c s :
  raises c = true ->
  attempt raises c s
  = Raise (Raised c) (State (fs s) (stdout s) (stderr s) (trace s ++ [c])).
Proof. intros H. unfold attempt. cbn. rewrite H. reflexivity. Qed.

Lemma attempt_ok raises c s :
  raises c = false ->
  attempt raises c s
  = Ok tt (State (fs s) (stdout s) (stderr s) (trace s ++ [c])).
Proof. intros H. unfold attempt. cbn. rewrite H. reflexivity. Qed.

Lemma bool_cases (b : bool) : b = true \/ b = false.
Proof. destruct b; [left|right]; reflexivity. Qed.

(** a failed [save] at one path leaves the other paths alone *)
Lemma lookup_spoil_ne (opened : bool) (p : string) (fmt : format) (im : image)
    (f : gmap string content) (q : string) :
  p <> q -> spoil opened p fmt im f !! q = f !! q.
Proof.
  intros Hne. unfold spoil. destruct opened; [|reflexivity].
  destruct (f !! p); [apply lookup_insert_ne, Hne|reflexivity].
Qed.

Lemma lookup_spoil_same (opened : bool) (p : string) (fmt : format)
    (im : image) (f : gmap string content) :
  spoil opened p fmt im f !! p
  = if opened
    then match f !! p with
         | Some _ => Some (Partial fmt im)
         | None => None
         end
    else f !! p.
Proof.
  unfold spoil. destruct opened; [|reflexivity].
  destruct (f !! p) eqn:E; [apply lookup_insert_eq|exact E].
Qed.


(** what [resize] returns has the dimensions asked for *)
Lemma width_resized (im : image) (w h : Z) : width (resized im w h) = w.
Proof.
  unfold resized. destruct (width im =? w) eqn:E; [|reflexivity].
  destruct (height im =? h); [apply Z.eqb_eq, E|reflexivity].
Qed.

Lemma height_resized (im : image) (w h : Z) : height (resized im w h) = h.
Proof.
  unfold resized. destruct (height im =? h) eqn:E.
  - destruct (width im =? w); [apply Z.eqb_eq, E|reflexivity].
  - rewrite andb_false_r. reflexivity.
Qed.

Arguments attempt : simpl never.
Arguments holds : simpl never.

Lemma save_ok raises im p fmt optimize sizes s :
  raises (Save p fmt) = false ->
  save raises im p fmt optimize sizes s
  = Ok tt (State (Disk (<[p := Encoded fmt im optimize sizes]> (files (fs s)))
                       (dirs (fs s)))
                 (stdout s) (stderr s) (trace s ++ [Save p fmt])).
Proof. intros H. cbn. rewrite (attempt_ok raises _ _ H). reflexivity. Qed.


(** two string literals differ *)
Ltac str_neq := let H := fresh in intros H; discriminate H.

(** a lookup through an insertion or a deletion at a known path, or
    through what a failed [save] left at another path *)
Ltac fs_step :=
  match goal with
  | |- context [<[?k:=?v]> ?m !! ?p] =>
      first [ constr_eq k p; rewrite (lookup_insert_eq m k v)
            | rewrite (lookup_insert_ne m k p v) by str_neq ]
  | |- context [delete ?k ?m !! ?p] =>
      first [ constr_eq k p; rewrite (lookup_delete_eq m k)
            | rewrite (lookup_delete_ne m k p) by str_neq ]
  | |- context [spoil ?o ?k ?f ?i ?m !! ?p] =>
      rewrite (lookup_spoil_ne o k f i m p) by str_neq
  end.

Ltac fs_simpl := repeat fs_step.

(** a string given by its characters *)
Ltac is_literal s :=
  lazymatch s with
  | EmptyString => idtac
  | String _ ?rest => is_literal rest
  end.

(** compute the paths built with [</>] from literals *)
Ltac norm_strings :=
  repeat match goal with
  | |- context [path_join ?a ?b] =>
      is_literal a; is_literal b;
      let s := eval vm_compute in (path_join a b) in
      change (path_join a b) with s
  end.

(** what [resize] returns for an image of known dimensions *)
Ltac norm_resized :=
  repeat match goal with
  | |- context [resized ?im ?w ?h] =>
      first [ change (resized im w h) with im
            | change (resized im w h) with (Resized im w h LANCZOS) ]
  end.

(** name the image drawn so far, so that terms stay small *)
Ltac name_image :=
  repeat match goal with
  | |- context [Drawn ?a ?s] =>
      first [ is_var a | lazymatch a with New _ _ _ => idtac end ];
      let im := fresh "img" in set (im := Drawn a s)
  end.

(** unfold the script up to the next call *)
Ltac py_cbn :=
  cbn;
  unfold Vector.SVG_SOURCE, Vector.temp_png, Vector.PUBLIC_DIR,
         Simple.PUBLIC_DIR, path_exists;
  cbn; norm_strings; norm_resized; name_image.

(** one step of a run: the next call raises or not, as a hypothesis says
    or else by cases; then what the step reads from the disk *)
Ltac run_step raises :=
  first
  [ lazymatch goal with
    | |- context [attempt raises ?c ?s] =>
      lazymatch goal with
      | E : raises c = true |- _ => rewrite (attempt_raises raises c s E)
      | E : raises c = false |- _ => rewrite (attempt_ok raises c s E)
      | E : forall c', raises c' = false |- _ =>
          rewrite (attempt_ok raises c s (E c))
      | _ =>
          let E := fresh "E" in
          destruct (bool_cases (raises c)) as [E|E];
          [ rewrite (attempt_raises raises c s E)
          | rewrite (attempt_ok raises c s E) ]
      end; py_cbn
    end
  | progress fs_simpl; py_cbn
  | match goal with
    | H : files ?d !! ?p = _ |- context [files ?d !! ?p] => rewrite H; py_cbn
    | |- context [files ?d !! ?p] =>
        is_var d;
        let H := fresh "F" in
        destruct (files d !! p) as [[?|? ? ? ?|? ?]|] eqn:H; py_cbn
    end
  | lazymatch goal with
    | |- context [bool_decide ?P] =>
      lazymatch goal with
      | H : bool_decide P = _ |- _ => rewrite H
      | _ =>
          let H := fresh "D" in
          destruct (bool_decide P) eqn:H
      end; py_cbn
    end ].

Ltac run_all raises := py_cbn; repeat run_step raises.

(** all the ways a run can go, for a goal [let o := run ... in P o]: one
    goal for each, with [o] computed *)
Ltac run_cases raises :=
  lazymatch goal with
  | |- let o := ?r in @?P o =>
      let Q := fresh "Q" in
      let HQ := fresh "HQ" in
      change (holds P r);
      remember P as Q eqn:HQ;
      run_all raises;
      subst Q; unfold holds; cbn beta;
      cbn [exit_code final fs stdout stderr trace files dirs]
  end.

(** * Properties *)

(** ** Float arithmetic *)
Section FloatFacts.
Import PyFloat.

Lemma round53_small (m e : Z) : 0 <= m < 2 ^ 53 -> round53 m e = mk m e.
Proof.
  intros [H0 H1]. unfold round53.
  destruct (Z.eq_dec m 0) as [->|Hm]; [reflexivity|].
  assert (Z.log2 m < 53) by (apply Z.log2_lt_pow2; lia).
  destruct (Z.ltb_spec (Z.log2 m) 53); [reflexivity|lia].
Qed.

(** the rounded mantissa is within half a unit of the exact value *)
Lemma round53_large (m e : Z) :
  2 ^ 53 <= m ->
  exists q k, round53 m e = mk q (e + k) /\ 1 <= k /\ k = Z.log2 m - 52 /\
    2 ^ k * 2 ^ 52 <= m /\
    2 * m - 2 ^ k <= 2 * (q * 2 ^ k) <= 2 * m + 2 ^ k.
Proof.
  intros Hm. unfold round53.
  assert (53 <= Z.log2 m) by (apply Z.log2_le_pow2; lia).
  destruct (Z.ltb_spec (Z.log2 m) 53); [lia|].
  set (k := Z.log2 m - 52).
  assert (Hk : 1 <= k) by (unfold k; lia).
  assert (Hp : 0 < 2 ^ k) by (apply Z.pow_pos_nonneg; lia).
  assert (Hh : 2 ^ k = 2 * 2 ^ (k - 1)).
  { replace k with (Z.succ (k - 1)) at 1 by lia. rewrite Z.pow_succ_r; lia. }
  pose proof (Z.div_mod m (2 ^ k) ltac:(lia)) as Hdm.
  pose proof (Z.mod_pos_bound m (2 ^ k) Hp) as Hr.
  assert (Hlow : 2 ^ k * 2 ^ 52 <= m).
  { rewrite <- Z.pow_add_r by lia. replace (k + 52) with (Z.log2 m) by (unfold k; lia).
    apply Z.log2_spec. lia. }
  eexists _, k. split; [reflexivity|]. split; [exact Hk|]. split; [reflexivity|].
  split; [exact Hlow|].
  set (q := m / 2 ^ k) in *. set (r := m mod 2 ^ k) in *.
  set (h := 2 ^ (k - 1)) in *.
  destruct (Z.ltb_spec h r); simpl.
  - nia.
  - destruct (Z.eqb_spec r h); simpl; [destruct (Z.odd q)|]; nia.
Qed.

(** [int(n * 0.5)] halves, rounding down *)
Lemma int_mul_half (n : Z) : 0 <= n < 2 ^ 53 -> int_mul n c0_5 = n / 2.
Proof.
  intros [H0 H1]. unfold int_mul.
  destruct (Z.eq_dec n 0) as [->|Hn]; [reflexivity|].
  rewrite Z.sgn_pos, Z.abs_eq, Z.mul_1_l by lia.
  unfold of_int. rewrite round53_small by lia.
  unfold mul, c0_5; cbn [mant expo].
  destruct (Z.eq_dec n 1) as [->|Hn1]; [reflexivity|].
  destruct (round53_large (n * 4503599627370496) (0 + -53)) as (q & k & -> & Hk & Hkl & Hlow & Hq).
  { lia. }
  assert (Hl : Z.log2 (n * 4503599627370496) = Z.log2 n + 52).
  { change 4503599627370496 with (2 ^ 52). rewrite Z.log2_mul_pow2; lia. }
  assert (Hk52 : k <= 52).
  { assert (Z.log2 n < 53) by (apply Z.log2_lt_pow2; lia). lia. }
  unfold trunc; cbn [mant expo].
  destruct (Z.leb_spec 0 (0 + -53 + k)); [lia|].
  replace (- (0 + -53 + k)) with (53 - k) by lia.
  assert (Hp : 0 < 2 ^ k) by (apply Z.pow_pos_nonneg; lia).
  assert (Hsplit : 2 ^ 52 = 2 ^ (52 - k) * 2 ^ k).
  { rewrite <- Z.pow_add_r by lia. f_equal; lia. }
  assert (Hs53 : 2 ^ (53 - k) = 2 * 2 ^ (52 - k)).
  { replace (53 - k) with (Z.succ (52 - k)) by lia. rewrite Z.pow_succ_r; lia. }
  assert (Hp' : 0 < 2 ^ (52 - k)) by (apply Z.pow_pos_nonneg; lia).
  change 4503599627370496 with (2 ^ 52) in Hq.
  rewrite Hsplit in Hq.
  assert (q = n * 2 ^ (52 - k)) by nia.
  subst q. rewrite Hs53.
  rewrite Z.div_mul_cancel_r by lia. reflexivity.
Qed.

(** [int(n * 0.35)] is [0.35 * n] rounded down, or one less *)
Lemma int_mul_0_35_bounds (n : Z) :
  0 <= n < 2 ^ 31 ->
  0 <= int_mul n c0_35 /\ 7 * n - 20 <= 20 * int_mul n c0_35 <= 7 * n.
Proof.
  intros [H0 H1]. unfold int_mul.
  destruct (Z.eq_dec n 0) as [->|Hn]; [vm_compute; repeat split; discriminate|].
  rewrite Z.sgn_pos, Z.abs_eq, Z.mul_1_l by lia.
  unfold of_int. rewrite round53_small by lia.
  unfold mul, c0_35; cbn [mant expo].
  destruct (Z.eq_dec n 1) as [->|Hn1]; [vm_compute; repeat split; discriminate|].
  destruct (round53_large (n * 6305039478318694) (0 + -54)) as (q & k & -> & Hk & Hkl & Hlow & Hq).
  { lia. }
  assert (Hk31 : k <= 32).
  { assert (Z.log2 (n * 6305039478318694) < 84); [|lia].
    apply Z.log2_lt_pow2; [lia|].
    change (2 ^ 84) with (2 ^ 31 * 2 ^ 53). nia. }
  unfold trunc; cbn [mant expo].
  destruct (Z.leb_spec 0 (0 + -54 + k)); [lia|].
  replace (- (0 + -54 + k)) with (54 - k) by lia.
  assert (Hp : 0 < 2 ^ k) by (apply Z.pow_pos_nonneg; lia).
  assert (Hp' : 0 < 2 ^ (54 - k)) by (apply Z.pow_pos_nonneg; lia).
  assert (Hsplit : 2 ^ (54 - k) * 2 ^ k = 2 ^ 54).
  { rewrite <- Z.pow_add_r by lia. f_equal; lia. }
  pose proof (Z.div_mod q (2 ^ (54 - k)) ltac:(lia)) as Hdm.
  pose proof (Z.mod_pos_bound q (2 ^ (54 - k)) Hp') as Hr.
  set (R := q / 2 ^ (54 - k)) in *.
  set (P := 2 ^ k) in *. set (Q := 2 ^ (54 - k)) in *.
  change (2 ^ 52) with 4503599627370496 in Hlow.
  change (2 ^ 54) with 18014398509481984 in Hsplit.
  change (2 ^ 31) with 2147483648 in H1.
  assert (HP : P < 2 * n) by nia.
  assert (Hup : R * 18014398509481984 <= q * P) by nia.
  assert (Hdn : q * P < (R + 1) * 18014398509481984) by nia.
  assert (0 <= R) by (apply Z.div_pos; nia).
  repeat split; lia.
Qed.

End FloatFacts.

(** ** Geometry of the star *)

Lemma dist2_polar (c r deg : Z) :
  dist2 (Polar c r Cos deg 0, Polar c r Sin deg 0) c c = (IZR r * IZR r)%R.
Proof.
  unfold dist2, num_R; cbn [fst snd].
  set (a := (IZR deg * (PI / 180))%R).
  pose proof (sin2_cos2 a) as H. unfold Rsqr in H.
  transitivity (IZR r * IZR r * (sin a * sin a + cos a * cos a))%R; [ring|].
  rewrite H. ring.
Qed.

Lemma star_radius_bounds (S : Z) :
  0 <= S < 2 ^ 31 ->
  0 <= star_radius S /\ 7 * S - 20 <= 20 * star_radius S <= 7 * S.
Proof. apply int_mul_0_35_bounds. Qed.

(** C2 (as amended): for a canvas size [S] that an image can have, vertex
    [i] of the star polygon is [center + r * (cos, sin)] of the angle
    [i * 45 - 90] degrees, where [center] is [S // 2] on both axes and [r]
    is [int(S * 0.35)] for even [i] and [int(int(S * 0.35) * 0.5)], half of
    it rounded down, for odd [i].  Its distance from the centre is [r], and
    [int(S * 0.35)] lies between [0.35 * S - 1] and [0.35 * S]. *)
Theorem star_points_geometry (S i : Z) :
  0 <= S < 2 ^ 31 -> 0 <= i < 8 ->
  let r := if Z.even i then star_radius S else star_radius S / 2 in
  let p := (Polar (center S) r Cos (i * 45 - 90) 0,
            Polar (center S) r Sin (i * 45 - 90) 0) in
  length (star_points S) = 8%nat /\
  star_points S !! Z.to_nat i = Some p /\
  dist2 p (center S) (center S) = (IZR r * IZR r)%R /\
  0 <= r /\
  7 * S - 20 <= 20 * star_radius S <= 7 * S.
Proof.
  intros HS Hi r p.
  destruct (star_radius_bounds S HS) as [Hr0 Hr].
  assert (Hhalf : PyFloat.int_mul (star_radius S) PyFloat.c0_5 = star_radius S / 2).
  { apply int_mul_half. change (2 ^ 31) with 2147483648 in HS.
    change (2 ^ 53) with 9007199254740992. lia. }
  split; [reflexivity|]. split.
  - assert (Hc : i = 0 \/ i = 1 \/ i = 2 \/ i = 3 \/ i = 4 \/ i = 5 \/ i = 6 \/ i = 7) by lia.
    unfold p, r, star_points.
    destruct Hc as [->|[->|[->|[->|[->|[->|[->| ->]]]]]]];
      cbn; unfold star_point; cbn; rewrite ?Hhalf; reflexivity.
  - split; [apply dist2_polar|]. split; [|exact Hr].
    unfold r. destruct (Z.even i); [exact Hr0|].
    apply Z.div_pos; lia.
Qed.

Lemma star_points_geometry_witness :
  star_points 512 !! 3%nat
  = Some (Polar 256 89 Cos 45 0, Polar 256 89 Sin 45 0).
Proof.
  assert (H1 : 0 <= 512 < 2 ^ 31) by (split; [discriminate|reflexivity]).
  assert (H2 : 0 <= 3 < 8) by (split; [discriminate|reflexivity]).
  exact (proj1 (proj2 (star_points_geometry 512 3 H1 H2))).
Defined.

(** C2 (as stated) fails at [S = 512]: vertex 0 lies at distance 179 from
    the centre [(256, 256)], and [0.35 * 512] is 179.2. *)
Lemma star_512_vertex_0 :
  star_points 512 !! 0%nat
    = Some (Polar 256 179 Cos (-90) 0, Polar 256 179 Sin (-90) 0) /\
  center 512 = 256 /\
  dist2 (Polar 256 179 Cos (-90) 0, Polar 256 179 Sin (-90) 0) 256 256
    = (179 * 179)%R /\
  (179 * 179 <> (35 / 100 * 512) * (35 / 100 * 512))%R.
Proof.
  split; [reflexivity|]. split; [reflexivity|]. split.
  - apply dist2_polar.
  - lra.
Qed.

(** * Tactics for the leaves *)

(** membership in a list given by its elements *)
Ltac elem_cases H :=
  lazymatch type of H with
  | _ ∈ [] => apply elem_of_nil in H; destruct H
  | ?x ∈ _ :: _ =>
      let E := fresh "E" in
      apply elem_of_cons in H as [E|H];
      [ try discriminate E; try (is_var x; subst x) | elem_cases H ]
  end.

(** a call is in a list given by its elements *)
Ltac elem_solve :=
  repeat first [ apply list_elem_of_here | apply list_elem_of_further ].

(** [mkdir] comes first after the imports *)
Ltac solve_precedes :=
  (exists [Import "PIL"; Load "PIL"]; eexists; split; [reflexivity|elem_solve])
  || (exists [Import "PIL"; Load "PIL"; Import "cairosvg"; Load "cairosvg"];
      eexists; split; [reflexivity|elem_solve]).

(** no call twice in a trace given by its elements *)
Ltac nodup_solve := apply (bool_decide_unpack _); vm_compute; exact I.

(** [opt = true <-> v = VectorVariant /\ fmt = PNG] on constants *)
Ltac iff_solve :=
  split;
  [ let H := fresh in intros H; try discriminate H; split; reflexivity
  | let H1 := fresh in let H2 := fresh in
    intros [H1 H2]; try discriminate H1; try discriminate H2; reflexivity ].

(** the file of a save that is in the trace [Hs], and is not the failing
    call [Hne], is on disk with the dimensions of its table entry *)
Ltac saved_solve Hs Hne :=
  elem_cases Hs;
  match goal with
  | E : Save _ _ = Save _ _ |- _ => injection E as -> ->
  end;
  try (exfalso; apply Hne; reflexivity);
  do 6 eexists;
  (split; [|split; [|split; [fs_simpl; reflexivity|split; reflexivity]]]);
  first [ elem_solve; fail | reflexivity ].

(** format and [optimize] flag of a save that is in the trace [Hs] *)
Ltac encoded_solve Hs :=
  elem_cases Hs;
  match goal with
  | E : Save _ _ = Save _ _ |- _ => injection E as -> ->
  end;
  (split; [vm_compute; reflexivity|]);
  (let Hn := fresh in intros Hn; try congruence);
  do 3 eexists; (split; [fs_simpl; reflexivity|iff_solve]).

(** a run in which an import raised, when [Hi] says none does *)
Ltac import_fails Hi :=
  match goal with
  | E : _ ?c = true |- _ => rewrite (Hi c eq_refl) in E; discriminate E
  end.



(** the paths of the size table, and the temporary file *)
Lemma outputs_paths :
  outputs = ["public/favicon.ico"; "public/icons/apple-touch-icon.png";
             "public/icons/icon-192x192.png"; "public/icons/icon-512x512.png"].
Proof. reflexivity. Qed.

Lemma temp_png_path : Vector.temp_png = "public/temp_icon.png".
Proof. reflexivity. Qed.

Lemma svg_source_path : Vector.SVG_SOURCE = "public/favicon.svg".
Proof. reflexivity. Qed.

Lemma dirs_made (D : gset string) :
  {["public"]} ∪ ({["public/icons"]} ∪ ∅) ∪ D = {["public"; "public/icons"]} ∪ D.
Proof. rewrite (right_id_L ∅ (∪)). reflexivity. Qed.

Lemma dirs_again (D : gset string) :
  {["public"]} ∪ ({["public/icons"]} ∪ ∅)
    ∪ ({["public"]} ∪ ({["public/icons"]} ∪ ∅) ∪ D)
  = {["public"]} ∪ ({["public/icons"]} ∪ ∅) ∪ D.
Proof. rewrite (assoc_L (∪)), union_idemp_L. reflexivity. Qed.

(** a second [mkdir] over the directories the first one made *)
Ltac dirs_step :=
  match goal with
  | |- context [{["public"]} ∪ ({["public/icons"]} ∪ ∅)
                  ∪ ({["public"]} ∪ ({["public/icons"]} ∪ ∅) ∪ ?D)] =>
      rewrite (dirs_again D)
  end.

(** evaluate the run on the left of an equation, in an environment the
    hypotheses already settle *)
Ltac rerun raises :=
  lazymatch goal with
  | |- _ = ?rhs =>
      let R := fresh "R" in
      let HR := fresh "HR" in
      remember rhs as R eqn:HR;
      py_cbn; repeat first [ dirs_step | run_step raises ];
      subst R
  end.

(** a lookup at [i] through a layer at a path that [i] is known to differ
    from *)
Ltac peel i :=
  match goal with
  | Hne : ?k <> i |- context [<[?k := ?v]> ?m !! i] =>
      rewrite (lookup_insert_ne m k i v Hne)
  | Hne : ?k <> i |- context [delete ?k ?m !! i] =>
      rewrite (lookup_delete_ne m k i Hne)
  | Hne : ?k <> i |- context [spoil ?o ?k ?f ?im ?m !! i] =>
      rewrite (lookup_spoil_ne o k f im m i Hne)
  end.

Ltac key_split k i :=
  let Hne := fresh "Hne" in
  destruct (decide (k = i)) as [<-|Hne].

(** two maps built by insertions and deletions at known paths, and by what
    a failed [save] left, agree: they do at each of these paths, and at
    every other path *)
Ltac same_files :=
  apply map_eq; let i := fresh "i" in intros i;
  repeat first
    [ peel i
    | match goal with
      | |- context [<[?k := _]> _ !! i] => key_split k i
      | |- context [delete ?k _ !! i] => key_split k i
      | |- context [spoil _ ?k _ _ _ !! i] => key_split k i
      end ];
  repeat first [ fs_step | rewrite lookup_spoil_same ];
  repeat case_match; simplify_eq; reflexivity.

Ltac same_outcome :=
  first
    [ reflexivity
    | f_equal; f_equal; f_equal; same_files ].

(** * The runs *)

(** C1 (as amended): when no call raises and, for the vector variant, the
    source is a text file, the run exits with status 0; each of the four
    paths of the size table then holds an encoded image whose width and
    height are those of the table; and no other file differs from before
    the run, but for the temporary file of the vector variant, which is
    gone. *)
Theorem icons_generated (v : variant) (raises : call -> bool) (d : disk) :
  (forall c, raises c = false) ->
  (v = VectorVariant ->
   exists svg, files d !! Vector.SVG_SOURCE = Some (Text svg)) ->
  let o := run v raises d in
  exit_code o = 0 /\
  (forall filename w h, (filename, (w, h)) ∈ Vector.SIZES ->
     exists fmt im opt sz,
       files (fs (final o)) !! (Vector.PUBLIC_DIR </> filename)
       = Some (Encoded fmt im opt sz) /\
       width im = w /\ height im = h) /\
  (forall p, p ∉ outputs -> p <> Vector.temp_png ->
     files (fs (final o)) !! p = files d !! p) /\
  files (fs (final o)) !! Vector.temp_png
  = match v with
    | VectorVariant => None
    | SimpleVariant => files d !! Vector.temp_png
    end.
Proof.
  intros Hr Hsvg. destruct v.
  - destruct (Hsvg eq_refl) as [svg F]. clear Hsvg.
    rewrite svg_source_path in F.
    run_cases raises.
    split; [reflexivity|]. split; [|split].
    + intros filename w h Hin. unfold Vector.SIZES in Hin.
      elem_cases Hin; injection E as -> -> ->;
        unfold Vector.PUBLIC_DIR; norm_strings; fs_simpl;
        do 4 eexists; (split; [reflexivity|split; reflexivity]).
    + intros p Hp Hne. rewrite outputs_paths in Hp.
      rewrite temp_png_path in Hne.
      rewrite !not_elem_of_cons in Hp. destruct Hp as (? & ? & ? & ? & _).
      rewrite lookup_delete_ne by congruence.
      rewrite !lookup_insert_ne by congruence. reflexivity.
    + rewrite temp_png_path. apply lookup_delete_eq.
  - clear Hsvg.
    run_cases raises.
    split; [reflexivity|]. split; [|split].
    + intros filename w h Hin. unfold Vector.SIZES in Hin.
      elem_cases Hin; injection E as -> -> ->;
        unfold Vector.PUBLIC_DIR; norm_strings; fs_simpl;
        do 4 eexists; (split; [reflexivity|split; reflexivity]).
    + intros p Hp Hne. rewrite outputs_paths in Hp.
      rewrite temp_png_path in Hne.
      rewrite !not_elem_of_cons in Hp. destruct Hp as (? & ? & ? & ? & _).
      rewrite !lookup_insert_ne by congruence. reflexivity.
    + rewrite temp_png_path.
      rewrite !lookup_insert_ne by str_neq. reflexivity.
Qed.

Lemma icons_generated_witness :
  (forall c, all_fine c = false) /\
  (exists svg, files disk_with_source !! Vector.SVG_SOURCE = Some (Text svg)) /\
  exit_code (run VectorVariant all_fine disk_with_source) = 0.
Proof.
  assert (H1 : forall c, all_fine c = false) by (intros c; reflexivity).
  assert (H2 : exists svg,
             files disk_with_source !! Vector.SVG_SOURCE = Some (Text svg))
    by (exists "<svg/>"; vm_compute; reflexivity).
  split; [exact H1|]. split; [exact H2|].
  exact (proj1 (icons_generated VectorVariant all_fine disk_with_source
                  H1 (fun _ => H2))).
Defined.

(** C1 (as stated) fails: with both libraries installed and the source
    file on disk, a source that cairosvg cannot rasterize ends the run with
    status 1 and none of the four files. *)
Lemma vector_malformed_source_no_icons :
  malformed_source (Import "PIL") = false /\
  malformed_source (Import "cairosvg") = false /\
  path_exists disk_with_source Vector.SVG_SOURCE = true /\
  exit_code (Vector.run malformed_source disk_with_source) = 1 /\
  map (fun p => files (fs (final (Vector.run malformed_source disk_with_source)))
                  !! p) outputs
  = [None; None; None; None].
Proof. repeat split; vm_compute; reflexivity. Qed.

(** C3: in the vector variant, when the source vector file does not exist
    the process exits with status 1 and the files on disk are exactly those
    from before the run: no image was written. *)
Theorem vector_source_absent (raises : call -> bool) (d : disk) :
  path_exists d Vector.SVG_SOURCE = false ->
  let o := Vector.run raises d in
  exit_code o = 1 /\ files (fs (final o)) = files d.
Proof.
  rewrite svg_source_path. unfold path_exists.
  destruct (files d !! "public/favicon.svg") eqn:F; [intros; discriminate|].
  intros Hd. apply bool_decide_eq_false in Hd.
  run_all raises; try (split; reflexivity).
  all: apply bool_decide_eq_true in D; set_solver.
Qed.

Lemma vector_source_absent_witness :
  path_exists empty_disk Vector.SVG_SOURCE = false /\
  exit_code (Vector.run all_fine empty_disk) = 1 /\
  files (fs (final (Vector.run all_fine empty_disk))) = files empty_disk.
Proof.
  split; [reflexivity|].
  apply (vector_source_absent all_fine empty_disk). reflexivity.
Defined.

(** C4: the generator is idempotent and deterministic.  Run again on the
    disk a first run left, with the same environment, either variant ends
    in the very same way: same files and directories, same console output,
    same exit status.  And the files a successful run leaves at the paths
    of the size table depend on the source alone, not on what the disk
    held there before: they are overwritten. *)
Theorem rerun_identical (v : variant) (raises : call -> bool) (d : disk) :
  let o := run v raises d in
  run v raises (fs (final o)) = o /\
  (forall d',
     files d' !! Vector.SVG_SOURCE = files d !! Vector.SVG_SOURCE ->
     exit_code o = 0 ->
     forall p, p ∈ outputs ->
       files (fs (final (run v raises d'))) !! p = files (fs (final o)) !! p).
Proof.
  destruct v.
  - run_cases raises.
    all: split; [rerun raises; same_outcome|].
    all: intros d' Hsrc Hx; try discriminate Hx.
    all: rewrite svg_source_path in Hsrc.
    all: try match goal with
         | F : files _ !! "public/favicon.svg" = Some _ |- _ => rewrite F in Hsrc
         end.
    all: run_all raises.
    all: intros p Hp; try rewrite outputs_paths in Hp; elem_cases Hp.
    all: fs_simpl; reflexivity.
  - run_cases raises.
    all: split; [rerun raises; same_outcome|].
    all: intros d' Hsrc Hx; try discriminate Hx.
    all: run_all raises.
    all: intros p Hp; try rewrite outputs_paths in Hp; elem_cases Hp.
    all: fs_simpl; reflexivity.
Qed.

Lemma rerun_identical_witness :
  run SimpleVariant disk_full_at_192
    (fs (final (run SimpleVariant disk_full_at_192 empty_disk)))
  = run SimpleVariant disk_full_at_192 empty_disk.
Proof.
  exact (proj1 (rerun_identical SimpleVariant disk_full_at_192 empty_disk)).
Defined.

(** C5: when a call inside the [try] block raises, the run stops there:
    that call is the last one attempted and no call was attempted twice,
    the last line printed is the error message of the exception (the
    procedural variant adds the traceback), the exit status is 1, and every
    file saved before the failure is still on disk, holding an image of the
    dimensions the size table gives for its path. *)
Theorem exception_is_fatal (v : variant) (raises : call -> bool) (d : disk)
    (c : call) :
  let o := run v raises d in
  c ∈ trace (final o) -> in_try c = true -> raises c = true ->
  exit_code o = 1 /\
  last (stdout (final o)) = Some (Error (Raised c)) /\
  stderr (final o)
  = match v with VectorVariant => [] | SimpleVariant => [Raised c] end /\
  last (trace (final o)) = Some c /\
  NoDup (trace (final o)) /\
  (forall p fmt, Save p fmt ∈ trace (final o) -> Save p fmt <> c ->
     exists filename w h im opt sz,
       (filename, (w, h)) ∈ Vector.SIZES /\
       p = Vector.PUBLIC_DIR </> filename /\
       files (fs (final o)) !! p = Some (Encoded fmt im opt sz) /\
       width im = w /\ height im = h).
Proof.
  destruct v.
  - run_cases raises.
    all: intros Hc Hk Hr; elem_cases Hc; try discriminate Hk; try congruence.
    all: split; [reflexivity|]; split; [reflexivity|]; split; [reflexivity|];
         split; [reflexivity|]; split; [nodup_solve|].
    all: intros ? ? Hs Hne; saved_solve Hs Hne.
  - run_cases raises.
    all: intros Hc Hk Hr; elem_cases Hc; try discriminate Hk; try congruence.
    all: split; [reflexivity|]; split; [reflexivity|]; split; [reflexivity|];
         split; [reflexivity|]; split; [nodup_solve|].
    all: intros ? ? Hs Hne; saved_solve Hs Hne.
Qed.

Lemma exception_is_fatal_witness :
  Save "public/icons/icon-192x192.png" PNG
    ∈ trace (final (run SimpleVariant disk_full_at_192 empty_disk)) /\
  in_try (Save "public/icons/icon-192x192.png" PNG) = true /\
  disk_full_at_192 (Save "public/icons/icon-192x192.png" PNG) = true /\
  exit_code (run SimpleVariant disk_full_at_192 empty_disk) = 1.
Proof.
  assert (H1 : Save "public/icons/icon-192x192.png" PNG
                 ∈ trace (final (run SimpleVariant disk_full_at_192 empty_disk))).
  { vm_compute. elem_solve. }
  assert (H2 : in_try (Save "public/icons/icon-192x192.png" PNG) = true)
    by reflexivity.
  assert (H3 : disk_full_at_192 (Save "public/icons/icon-192x192.png" PNG) = true)
    by reflexivity.
  split; [exact H1|]. split; [exact H2|]. split; [exact H3|].
  exact (proj1 (exception_is_fatal SimpleVariant disk_full_at_192 empty_disk
                  (Save "public/icons/icon-192x192.png" PNG) H1 H2 H3)).
Defined.

(** C6 (as amended): in both variants a file is saved in the format its
    extension gives, ICO for [.ico] and PNG otherwise, and when the save
    does not raise the file on disk has that format.  Size optimization is
    requested for the PNG files of the vector variant only: the procedural
    variant passes no [optimize] argument, and no ICO file is optimized. *)
Theorem encoding_by_extension (v : variant) (raises : call -> bool) (d : disk)
    (p : string) (fmt : format) :
  let o := run v raises d in
  Save p fmt ∈ trace (final o) ->
  fmt = (if endswith p ".ico" then ICO else PNG) /\
  (raises (Save p fmt) = false ->
   exists im opt sz,
     files (fs (final o)) !! p = Some (Encoded fmt im opt sz) /\
     (opt = true <-> v = VectorVariant /\ fmt = PNG)).
Proof.
  destruct v.
  - run_cases raises. all: intros Hs; encoded_solve Hs.
  - run_cases raises. all: intros Hs; encoded_solve Hs.
Qed.

Lemma encoding_by_extension_witness :
  Save "public/favicon.ico" ICO
    ∈ trace (final (run SimpleVariant all_fine empty_disk)) /\
  ICO = (if endswith "public/favicon.ico" ".ico" then ICO else PNG).
Proof.
  assert (H : Save "public/favicon.ico" ICO
                ∈ trace (final (run SimpleVariant all_fine empty_disk))).
  { vm_compute. elem_solve. }
  split; [exact H|].
  exact (proj1 (encoding_by_extension SimpleVariant all_fine empty_disk
                  "public/favicon.ico" ICO H)).
Defined.

(** C6 (as stated) fails for the procedural variant: after a run in which
    nothing raises, the 192x192 PNG on disk was saved without size
    optimization. *)
Lemma simple_png_not_optimized :
  exists im,
    files (fs (final (Simple.run all_fine empty_disk)))
      !! "public/icons/icon-192x192.png"
    = Some (Encoded PNG im false None).
Proof. eexists. vm_compute. reflexivity. Qed.



(** C8 (as amended): when a library a variant depends on cannot be
    imported, the run stops at the first step of the imports that raises:
    the steps before it did not raise, nothing else was attempted, the exit
    status is 1 and the disk is untouched.  The vector variant prints the
    two lines of installation instructions when that step raised an
    [ImportError], the library not being installed; an exception raised
    while a library is loaded passes its handler, and the run ends on the
    traceback with nothing on standard output.  The procedural variant has
    no handler around its import: it prints nothing on standard output and
    ends on the traceback, whatever was raised. *)
Theorem missing_dependency (v : variant) (raises : call -> bool) (d : disk)
    (module : string) :
  module ∈ dependencies v ->
  raises (Import module) = true \/ raises (Load module) = true ->
  let o := run v raises d in
  exit_code o = 1 /\
  fs (final o) = d /\
  exists pre c post,
    import_steps v = pre ++ c :: post /\
    Forall (fun c' => raises c' = false) pre /\
    raises c = true /\
    trace (final o) = pre ++ [c] /\
    match v, c with
    | VectorVariant, Import _ =>
        stdout (final o) = [MissingDependencies; PipInstall] /\
        stderr (final o) = []
    | _, _ =>
        stdout (final o) = [] /\
        stderr (final o) = [Raised c]
    end.
Proof.
  intros Hm Hr.
  assert (Hsome : exists c, c ∈ import_steps v /\ raises c = true).
  { destruct v; cbn [dependencies] in Hm; elem_cases Hm;
      destruct Hr as [Hr|Hr]; eexists; (split; [|exact Hr]);
      cbn; elem_solve. }
  clear Hm Hr. destruct Hsome as (c0 & Hin & Hr0).
  destruct v; cbn in Hin.
  - destruct (bool_cases (raises (Import "PIL"))) as [E1|E1];
      [|destruct (bool_cases (raises (Load "PIL"))) as [E2|E2];
        [|destruct (bool_cases (raises (Import "cairosvg"))) as [E3|E3];
          [|destruct (bool_cases (raises (Load "cairosvg"))) as [E4|E4]]]].
    5: { exfalso. elem_cases Hin; congruence. }
    all: run_all raises.
    all: split; [reflexivity|]; split; [destruct d; reflexivity|].
    + exists [], (Import "PIL"); eexists.
      repeat split; [constructor|assumption].
    + exists [Import "PIL"], (Load "PIL"); eexists.
      repeat split; [repeat constructor; assumption|assumption].
    + exists [Import "PIL"; Load "PIL"], (Import "cairosvg"); eexists.
      repeat split; [repeat constructor; assumption|assumption].
    + exists [Import "PIL"; Load "PIL"; Import "cairosvg"], (Load "cairosvg");
        eexists.
      repeat split; [repeat constructor; assumption|assumption].
  - destruct (bool_cases (raises (Import "PIL"))) as [E1|E1];
      [|destruct (bool_cases (raises (Load "PIL"))) as [E2|E2]].
    3: { exfalso. elem_cases Hin; congruence. }
    all: run_all raises.
    all: split; [reflexivity|]; split; [destruct d; reflexivity|].
    + exists [], (Import "PIL"); eexists.
      repeat split; [constructor|assumption].
    + exists [Import "PIL"], (Load "PIL"); eexists.
      repeat split; [repeat constructor; assumption|assumption].
Qed.

Lemma missing_dependency_witness :
  stdout (final (run VectorVariant cairosvg_missing disk_with_source))
  = [MissingDependencies; PipInstall] /\
  (stdout (final (run VectorVariant cairo_missing disk_with_source)) = [] /\
   stderr (final (run VectorVariant cairo_missing disk_with_source))
   = [Raised (Load "cairosvg")]) /\
  fs (final (run SimpleVariant nothing_installed empty_disk)) = empty_disk.
Proof.
  assert (H1 : "cairosvg" ∈ dependencies VectorVariant) by (right; left).
  assert (H2 : cairosvg_missing (Import "cairosvg") = true
               \/ cairosvg_missing (Load "cairosvg") = true)
    by (left; reflexivity).
  assert (H3 : cairo_missing (Import "cairosvg") = true
               \/ cairo_missing (Load "cairosvg") = true)
    by (right; reflexivity).
  assert (H4 : "PIL" ∈ dependencies SimpleVariant) by left.
  assert (H5 : nothing_installed (Import "PIL") = true
               \/ nothing_installed (Load "PIL") = true)
    by (left; reflexivity).
  split; [|split].
  - destruct (missing_dependency VectorVariant cairosvg_missing
                disk_with_source "cairosvg" H1 H2)
      as (_ & _ & pre & c & post & _ & _ & Hc & _ & Hout).
    destruct c; try discriminate Hc. exact (proj1 Hout).
  - destruct (missing_dependency VectorVariant cairo_missing
                disk_with_source "cairosvg" H1 H3)
      as (_ & _ & pre & c & post & _ & _ & Hc & _ & Hout).
    destruct c; try discriminate Hc.
    cbn in Hc. apply String.eqb_eq in Hc. subst module. exact Hout.
  - exact (proj1 (proj2 (missing_dependency SimpleVariant nothing_installed
                           empty_disk "PIL" H4 H5))).
Defined.

(** C8 (as stated) fails for the procedural variant: with Pillow missing
    the run ends with status 1 and no line at all on standard output, so no
    installation instructions. *)
Lemma simple_missing_pillow_prints_nothing :
  nothing_installed (Import "PIL") = true /\
  exit_code (Simple.run nothing_installed empty_disk) = 1 /\
  stdout (final (Simple.run nothing_installed empty_disk)) = [] /\
  PipInstall ∉ stdout (final (Simple.run nothing_installed empty_disk)).
Proof.
  split; [reflexivity|]. split; [reflexivity|]. split; [reflexivity|].
  cbn. apply not_elem_of_nil.
Qed.

(** C9: in the vector variant the temporary file is written by the
    rasterization and unlinked before success is reported.  After a run
    that exits with status 0, and whenever the line of success was printed,
    the temporary file does not exist.  When the run got past rasterization
    (it went on to open the temporary file) and did not reach the cleanup,
    it fails and the temporary file is left on disk, holding the rasterized
    source. *)
Theorem temp_file_lifetime (raises : call -> bool) (d : disk) :
  let o := Vector.run raises d in
  (exit_code o = 0 ->
   files (fs (final o)) !! Vector.temp_png = None /\
   precedes (Svg2png Vector.SVG_SOURCE Vector.temp_png 512 512)
            (Unlink Vector.temp_png) (trace (final o))) /\
  (AllGenerated ∈ stdout (final o) ->
   files (fs (final o)) !! Vector.temp_png = None) /\
  (Open Vector.temp_png ∈ trace (final o) ->
   Unlink Vector.temp_png ∉ trace (final o) ->
   exit_code o = 1 /\
   exists svg,
     files d !! Vector.SVG_SOURCE = Some (Text svg) /\
     files (fs (final o)) !! Vector.temp_png
     = Some (Encoded PNG (Rasterized svg 512 512) false None)).
Proof.
  run_cases raises.
  all: unfold Vector.temp_png, Vector.SVG_SOURCE, Vector.PUBLIC_DIR;
       norm_strings.
  all: split; [intros Hx; try discriminate Hx|].
  all: try (split; [apply lookup_delete_eq|]).
  all: try (exists [Import "PIL"; Load "PIL"; Import "cairosvg";
                    Load "cairosvg"; Mkdir "public/icons";
                    Exists "public/favicon.svg"]; eexists;
            split; [reflexivity|elem_solve]).
  all: split; [intros Hx; first [ apply lookup_delete_eq
                                | elem_cases Hx; fail ]|].
  all: intros Ho Hu.
  all: try (elem_cases Ho; fail).
  all: try (exfalso; apply Hu; elem_solve; fail).
  all: split; [reflexivity|].
  all: eexists; split; [eassumption|].
  all: fs_simpl; reflexivity.
Qed.

Lemma temp_file_lifetime_witness :
  exit_code (Vector.run all_fine disk_with_source) = 0 /\
  files (fs (final (Vector.run all_fine disk_with_source))) !! Vector.temp_png
  = None.
Proof.
  assert (H : exit_code (Vector.run all_fine disk_with_source) = 0)
    by reflexivity.
  split; [exact H|].
  exact (proj1 (proj1 (temp_file_lifetime all_fine disk_with_source) H)).
Defined.

(** C10: in both variants the icons directory is made at module start.
    When the imports do not raise, the [mkdir] call is the first thing
    attempted after them, in every run of either variant, and when it does
    not raise the directories on disk are then those from before the run
    with [public] and [public/icons] added: it removes none, and changes
    nothing when both exist.  Every check of the input and every call that
    makes or changes an image comes after the [mkdir] call in the run.  In
    the vector variant a run that ends on the missing source leaves
    [public/icons] on disk. *)
Theorem icons_dir_created_first (v : variant) (raises : call -> bool) (d : disk) :
  let o := run v raises d in
  ((forall c, is_import c = true -> raises c = false) ->
   (exists post,
      trace (final o) = import_steps v ++ Mkdir "public/icons" :: post) /\
   (raises (Mkdir "public/icons") = false ->
    dirs (fs (final o)) = {["public"; "public/icons"]} ∪ dirs d)) /\
  (forall c, c ∈ trace (final o) -> reads_or_draws c = true ->
     precedes (Mkdir "public/icons") c (trace (final o))) /\
  (Mkdir "public/icons" ∈ trace (final o) ->
   raises (Mkdir "public/icons") = false ->
   dirs (fs (final o)) = {["public"; "public/icons"]} ∪ dirs d) /\
  (v = VectorVariant ->
   last (stdout (final o)) = Some (NotFound Vector.SVG_SOURCE) ->
   exit_code o = 1 /\ "public/icons" ∈ dirs (fs (final o))).
Proof.
  destruct v.
  - run_cases raises.
    all: split;
         [intros Hi;
          first [ import_fails Hi
                | split; [eexists; reflexivity
                         |intros Hm; first [ congruence | apply dirs_made ]] ]|].
    all: split; [intros c Hc Hk; elem_cases Hc; try discriminate Hk; solve_precedes|].
    all: split; [intros Hc Hm;
                 first [ congruence | apply dirs_made | elem_cases Hc; fail ]|].
    all: intros _ Hl; try discriminate Hl.
    all: split; [reflexivity|set_solver].
  - run_cases raises.
    all: split;
         [intros Hi;
          first [ import_fails Hi
                | split; [eexists; reflexivity
                         |intros Hm; first [ congruence | apply dirs_made ]] ]|].
    all: split; [intros c Hc Hk; elem_cases Hc; try discriminate Hk; solve_precedes|].
    all: split; [intros Hc Hm;
                 first [ congruence | apply dirs_made | elem_cases Hc; fail ]|].
    all: intros Hv; discriminate Hv.
Qed.

Lemma icons_dir_created_first_witness :
  (forall c, is_import c = true -> all_fine c = false) /\
  dirs (fs (final (run SimpleVariant all_fine empty_disk)))
  = {["public"; "public/icons"]} ∪ dirs empty_disk /\
  last (stdout (final (run VectorVariant all_fine empty_disk)))
  = Some (NotFound Vector.SVG_SOURCE) /\
  "public/icons" ∈ dirs (fs (final (run VectorVariant all_fine empty_disk))).
Proof.
  assert (H0 : forall c, is_import c = true -> all_fine c = false)
    by (intros c _; reflexivity).
  assert (H : last (stdout (final (run VectorVariant all_fine empty_disk)))
              = Some (NotFound Vector.SVG_SOURCE)) by reflexivity.
  split; [exact H0|]. split; [|split; [exact H|]].
  - exact (proj2 (proj1 (icons_dir_created_first SimpleVariant all_fine
                           empty_disk) H0) eq_refl).
  - exact (proj2 (proj2 (proj2 (proj2
      (icons_dir_created_first VectorVariant all_fine empty_disk))) eq_refl H)).
Defined.

(** * Beyond the claims *)

(** ** More float arithmetic *)
Section MoreFloatFacts.
Import PyFloat.

(** [int(n * 0.12)] is [0.12 * n] rounded down, or one less *)
Lemma int_mul_0_12_bounds (n : Z) :
  0 <= n < 2 ^ 31 ->
  0 <= int_mul n c0_12 /\ 3 * n - 25 <= 25 * int_mul n c0_12 <= 3 * n.
Proof.
  intros [H0 H1]. unfold int_mul.
  destruct (Z.eq_dec n 0) as [->|Hn]; [vm_compute; repeat split; discriminate|].
  rewrite Z.sgn_pos, Z.abs_eq, Z.mul_1_l by lia.
  unfold of_int. rewrite round53_small by lia.
  unfold mul, c0_12; cbn [mant expo].
  destruct (Z.eq_dec n 1) as [->|Hn1]; [vm_compute; repeat split; discriminate|].
  destruct (round53_large (n * 8646911284551352) (0 + -56)) as (q & k & -> & Hk & Hkl & Hlow & Hq).
  { lia. }
  assert (Hk31 : k <= 32).
  { assert (Z.log2 (n * 8646911284551352) < 84); [|lia].
    apply Z.log2_lt_pow2; [lia|].
    change (2 ^ 84) with (2 ^ 31 * 2 ^ 53). nia. }
  unfold trunc; cbn [mant expo].
  destruct (Z.leb_spec 0 (0 + -56 + k)); [lia|].
  replace (- (0 + -56 + k)) with (56 - k) by lia.
  assert (Hp : 0 < 2 ^ k) by (apply Z.pow_pos_nonneg; lia).
  assert (Hp' : 0 < 2 ^ (56 - k)) by (apply Z.pow_pos_nonneg; lia).
  assert (Hsplit : 2 ^ (56 - k) * 2 ^ k = 2 ^ 56).
  { rewrite <- Z.pow_add_r by lia. f_equal; lia. }
  pose proof (Z.div_mod q (2 ^ (56 - k)) ltac:(lia)) as Hdm.
  pose proof (Z.mod_pos_bound q (2 ^ (56 - k)) Hp') as Hr.
  set (R := q / 2 ^ (56 - k)) in *.
  set (P := 2 ^ k) in *. set (Q := 2 ^ (56 - k)) in *.
  change (2 ^ 52) with 4503599627370496 in Hlow.
  change (2 ^ 56) with 72057594037927936 in Hsplit.
  change (2 ^ 31) with 2147483648 in H1.
  assert (HP : P < 2 * n) by nia.
  assert (Hup : R * 72057594037927936 <= q * P) by nia.
  assert (Hdn : q * P < (R + 1) * 72057594037927936) by nia.
  assert (0 <= R) by (apply Z.div_pos; nia).
  repeat split; lia.
Qed.

(** [int(n * 0.06)] is [0.06 * n] rounded down, or one less *)
Lemma int_mul_0_06_bounds (n : Z) :
  0 <= n < 2 ^ 31 ->
  0 <= int_mul n c0_06 /\ 3 * n - 50 <= 50 * int_mul n c0_06 <= 3 * n.
Proof.
  intros [H0 H1]. unfold int_mul.
  destruct (Z.eq_dec n 0) as [->|Hn]; [vm_compute; repeat split; discriminate|].
  rewrite Z.sgn_pos, Z.abs_eq, Z.mul_1_l by lia.
  unfold of_int. rewrite round53_small by lia.
  unfold mul, c0_06; cbn [mant expo].
  destruct (Z.eq_dec n 1) as [->|Hn1]; [vm_compute; repeat split; discriminate|].
  destruct (round53_large (n * 8646911284551352) (0 + -57)) as (q & k & -> & Hk & Hkl & Hlow & Hq).
  { lia. }
  assert (Hk31 : k <= 32).
  { assert (Z.log2 (n * 8646911284551352) < 84); [|lia].
    apply Z.log2_lt_pow2; [lia|].
    change (2 ^ 84) with (2 ^ 31 * 2 ^ 53). nia. }
  unfold trunc; cbn [mant expo].
  destruct (Z.leb_spec 0 (0 + -57 + k)); [lia|].
  replace (- (0 + -57 + k)) with (57 - k) by lia.
  assert (Hp : 0 < 2 ^ k) by (apply Z.pow_pos_nonneg; lia).
  assert (Hp' : 0 < 2 ^ (57 - k)) by (apply Z.pow_pos_nonneg; lia).
  assert (Hsplit : 2 ^ (57 - k) * 2 ^ k = 2 ^ 57).
  { rewrite <- Z.pow_add_r by lia. f_equal; lia. }
  pose proof (Z.div_mod q (2 ^ (57 - k)) ltac:(lia)) as Hdm.
  pose proof (Z.mod_pos_bound q (2 ^ (57 - k)) Hp') as Hr.
  set (R := q / 2 ^ (57 - k)) in *.
  set (P := 2 ^ k) in *. set (Q := 2 ^ (57 - k)) in *.
  change (2 ^ 52) with 4503599627370496 in Hlow.
  change (2 ^ 57) with 144115188075855872 in Hsplit.
  change (2 ^ 31) with 2147483648 in H1.
  assert (HP : P < 2 * n) by nia.
  assert (Hup : R * 144115188075855872 <= q * P) by nia.
  assert (Hdn : q * P < (R + 1) * 144115188075855872) by nia.
  assert (0 <= R) by (apply Z.div_pos; nia).
  repeat split; lia.
Qed.

(** [int(n * 0.25)] is the quarter, rounded down *)
Lemma int_mul_quarter (n : Z) : 0 <= n < 2 ^ 53 -> int_mul n c0_25 = n / 4.
Proof.
  intros [H0 H1]. unfold int_mul.
  destruct (Z.eq_dec n 0) as [->|Hn]; [reflexivity|].
  rewrite Z.sgn_pos, Z.abs_eq, Z.mul_1_l by lia.
  unfold of_int. rewrite round53_small by lia.
  unfold mul, c0_25; cbn [mant expo].
  destruct (Z.eq_dec n 1) as [->|Hn1]; [reflexivity|].
  destruct (round53_large (n * 4503599627370496) (0 + -54)) as (q & k & -> & Hk & Hkl & Hlow & Hq).
  { lia. }
  assert (Hl : Z.log2 (n * 4503599627370496) = Z.log2 n + 52).
  { change 4503599627370496 with (2 ^ 52). rewrite Z.log2_mul_pow2; lia. }
  assert (Hk52 : k <= 52).
  { assert (Z.log2 n < 53) by (apply Z.log2_lt_pow2; lia). lia. }
  unfold trunc; cbn [mant expo].
  destruct (Z.leb_spec 0 (0 + -54 + k)); [lia|].
  replace (- (0 + -54 + k)) with (54 - k) by lia.
  assert (Hp : 0 < 2 ^ k) by (apply Z.pow_pos_nonneg; lia).
  assert (Hsplit : 2 ^ 52 = 2 ^ (52 - k) * 2 ^ k).
  { rewrite <- Z.pow_add_r by lia. f_equal; lia. }
  assert (Hs54 : 2 ^ (54 - k) = 4 * 2 ^ (52 - k)).
  { replace (54 - k) with (2 + (52 - k)) by lia. rewrite Z.pow_add_r by lia.
    reflexivity. }
  assert (Hp' : 0 < 2 ^ (52 - k)) by (apply Z.pow_pos_nonneg; lia).
  change 4503599627370496 with (2 ^ 52) in Hq.
  rewrite Hsplit in Hq.
  assert (q = n * 2 ^ (52 - k)) by nia.
  subst q. rewrite Hs54.
  rewrite Z.div_mul_cancel_r by lia. reflexivity.
Qed.

End MoreFloatFacts.

(** the proportions of the drawing, for a canvas size an image can
    have.  The sparkle radius [int(size * 0.25)] is exactly [size // 4];
    the highlight radius [int(size * 0.12)] and the dot radius
    [int(size * 0.06)] are the exact products rounded down to an integer, or
    one less; none is negative. *)
Lemma radii_bounds (S : Z) :
  0 <= S < 2 ^ 31 ->
  sparkle_radius S = S / 4 /\
  (0 <= highlight_r S /\ 3 * S - 25 <= 25 * highlight_r S <= 3 * S) /\
  (0 <= dot_size S /\ 3 * S - 50 <= 50 * dot_size S <= 3 * S).
Proof.
  intros HS. split; [|split].
  - apply int_mul_quarter. change (2 ^ 31) with 2147483648 in HS.
    change (2 ^ 53) with 9007199254740992. lia.
  - apply int_mul_0_12_bounds, HS.
  - apply int_mul_0_06_bounds, HS.
Qed.

(** X1: the proportions of the drawing, for a canvas size an image can
    have.  The sparkle radius [int(size * 0.25)] is exactly [size // 4];
    the highlight radius [int(size * 0.12)] and the dot radius
    [int(size * 0.06)] are the exact products rounded down to an integer, or
    one less; none is negative. *)
Theorem radii_of_size (S : Z) :
  0 <= S < 2 ^ 31 ->
  sparkle_radius S = S / 4 /\
  (0 <= highlight_r S /\ 3 * S - 25 <= 25 * highlight_r S <= 3 * S) /\
  (0 <= dot_size S /\ 3 * S - 50 <= 50 * dot_size S <= 3 * S).
Proof. apply radii_bounds. Qed.

Lemma radii_of_size_witness :
  0 <= 180 < 2 ^ 31 /\ sparkle_radius 180 = 45.
Proof.
  assert (H : 0 <= 180 < 2 ^ 31) by (split; [discriminate|reflexivity]).
  split; [exact H|].
  exact (proj1 (radii_of_size 180 H)).
Defined.

(** ** The star in the plane *)

(** X2: the four long points of the star lie on the axes through the
    centre, at the star radius: vertex 0 straight above the centre (image
    rows grow downwards), vertex 2 to its right, vertex 4 below, vertex 6 to
    its left. *)
Theorem star_main_points (S : Z) :
  let c := IZR (center S) in
  let r := IZR (star_radius S) in
  let at_ i := (num_R (fst (star_point S i)), num_R (snd (star_point S i))) in
  at_ 0 = (c, c - r)%R /\
  at_ 2 = (c + r, c)%R /\
  at_ 4 = (c, c + r)%R /\
  at_ 6 = (c - r, c)%R.
Proof.
  intros c r at_. unfold at_.
  change (star_point S 0)
    with (Polar (center S) (star_radius S) Cos (-90) 0,
          Polar (center S) (star_radius S) Sin (-90) 0).
  change (star_point S 2)
    with (Polar (center S) (star_radius S) Cos 0 0,
          Polar (center S) (star_radius S) Sin 0 0).
  change (star_point S 4)
    with (Polar (center S) (star_radius S) Cos 90 0,
          Polar (center S) (star_radius S) Sin 90 0).
  change (star_point S 6)
    with (Polar (center S) (star_radius S) Cos 180 0,
          Polar (center S) (star_radius S) Sin 180 0).
  cbn [fst snd num_R]. fold c r.
  replace (-90 * (PI / 180))%R with (- (PI / 2))%R by lra.
  replace (0 * (PI / 180))%R with 0%R by lra.
  replace (90 * (PI / 180))%R with (PI / 2)%R by lra.
  replace (180 * (PI / 180))%R with PI by lra.
  rewrite cos_neg, sin_neg, cos_PI2, sin_PI2, cos_0, sin_0, cos_PI, sin_PI.
  repeat split; f_equal; ring.
Qed.

Lemma half_turn (deg : Z) :
  (IZR (deg + 180) * (PI / 180) = IZR deg * (PI / 180) + PI)%R.
Proof. rewrite plus_IZR. field. Qed.

(** X3: the star is symmetric about its centre.  Vertex [i + 4] is
    computed with the radius of vertex [i] and an angle 180 degrees greater.
    So, with cos and sin taken on the reals, it is the mirror image of
    vertex [i] through the point [(center, center)]; the coordinates the
    code computes are the binary64 roundings of these, and mirror each other
    up to that rounding only. *)
Theorem star_central_symmetry (S i : Z) :
  let c := IZR (center S) in
  (exists r deg,
     star_point S i
     = (Polar (center S) r Cos deg 0, Polar (center S) r Sin deg 0) /\
     star_point S (i + 4)
     = (Polar (center S) r Cos (deg + 180) 0,
        Polar (center S) r Sin (deg + 180) 0)) /\
  (num_R (fst (star_point S (i + 4))) - c
   = - (num_R (fst (star_point S i)) - c))%R /\
  (num_R (snd (star_point S (i + 4))) - c
   = - (num_R (snd (star_point S i)) - c))%R.
Proof.
  intros c. unfold star_point.
  replace ((i + 4) mod 2) with (i mod 2)
    by (rewrite <- (Z_mod_plus_full i 2 2); f_equal; lia).
  replace ((i + 4) * 45 - 90) with (i * 45 - 90 + 180) by lia.
  split; [do 2 eexists; split; reflexivity|].
  cbn [fst snd num_R]. rewrite half_turn, neg_cos, neg_sin.
  fold c. split; ring.
Qed.

(** a coordinate stays within its radius of the centre *)
Lemma polar_between (c r : Z) (f : trig) (deg off lo hi : Z) :
  0 <= r -> lo <= c - r + off -> c + r + off <= hi ->
  (IZR lo <= num_R (Polar c r f deg off) <= IZR hi)%R.
Proof.
  intros Hr Hlo Hhi. cbn [num_R].
  set (a := (IZR deg * (PI / 180))%R).
  assert (Ht : (-1 <= match f with Cos => cos a | Sin => sin a end <= 1)%R)
    by (destruct f; [apply COS_bound|apply SIN_bound]).
  set (t := match f with Cos => cos a | Sin => sin a end) in *.
  apply IZR_le in Hr, Hlo, Hhi.
  rewrite plus_IZR, minus_IZR in Hlo. rewrite !plus_IZR in Hhi.
  split; nra.
Qed.

Lemma int_between (n lo hi : Z) :
  lo <= n <= hi -> (IZR lo <= num_R (Int n) <= IZR hi)%R.
Proof. intros [H1 H2]. cbn. split; apply IZR_le; assumption. Qed.

(** ** What [draw_sparkle_star] draws *)

(** evaluate [draw_sparkle_star] on a new canvas of a size that is not
    negative *)
Ltac draw_cases raises Hneg :=
  py_cbn; run_step raises; [ | rewrite Hneg; py_cbn; repeat run_step raises ].

(** the eight vertices, in the order of the loop *)
Lemma star_points_list (S : Z) :
  let c := center S in
  let r := star_radius S in
  let r2 := PyFloat.int_mul r PyFloat.c0_5 in
  star_points S
  = [ (Polar c r Cos (-90) 0, Polar c r Sin (-90) 0);
      (Polar c r2 Cos (-45) 0, Polar c r2 Sin (-45) 0);
      (Polar c r Cos 0 0, Polar c r Sin 0 0);
      (Polar c r2 Cos 45 0, Polar c r2 Sin 45 0);
      (Polar c r Cos 90 0, Polar c r Sin 90 0);
      (Polar c r2 Cos 135 0, Polar c r2 Sin 135 0);
      (Polar c r Cos 180 0, Polar c r Sin 180 0);
      (Polar c r2 Cos 225 0, Polar c r2 Sin 225 0) ].
Proof. reflexivity. Qed.

(** X4: on a new canvas of a size an image can have, everything
    [draw_sparkle_star] draws stays on the canvas: every vertex of the star
    polygon and both bounding-box corners of the highlight and of the four
    sparkle dots have coordinates between 0 and the size. *)
Theorem drawing_on_canvas (raises : call -> bool) (S : Z) (s : state)
    (im : image) (s' : state) :
  0 <= S < 2 ^ 31 ->
  Simple.draw_sparkle_star raises S None s = Ok im s' ->
  forall sh p, sh ∈ drawn_shapes im -> p ∈ shape_points sh -> on_canvas S p.
Proof.
  intros HS.
  assert (Hneg : (S <? 0) = false) by (apply Z.ltb_ge; lia).
  destruct (star_radius_bounds S HS) as [Hr0 Hr].
  destruct (radii_bounds S HS) as (Hsp & [Hh0 Hh] & [Hd0 Hd]).
  assert (Hhalf : PyFloat.int_mul (star_radius S) PyFloat.c0_5 = star_radius S / 2).
  { apply int_mul_half. change (2 ^ 31) with 2147483648 in HS.
    change (2 ^ 53) with 9007199254740992. lia. }
  draw_cases raises Hneg; try discriminate.
  intros Heq sh p Hsh Hp. injection Heq as <- _.
  repeat match goal with x := _ : image |- _ => subst x end.
  rewrite star_points_list in Hsh. cbn in Hsh.
  unfold center in *. rewrite Hsp, ?Hhalf in *.
  pose proof (Z.div_mod S 2 ltac:(lia)) as H2.
  pose proof (Z.mod_pos_bound S 2 ltac:(lia)) as H2'.
  pose proof (Z.div_mod S 4 ltac:(lia)) as H4.
  pose proof (Z.mod_pos_bound S 4 ltac:(lia)) as H4'.
  pose proof (Z.div_mod (star_radius S) 2 ltac:(lia)) as H5.
  pose proof (Z.mod_pos_bound (star_radius S) 2 ltac:(lia)) as H5'.
  set (c := S / 2) in *. set (q := S / 4) in *.
  set (r := star_radius S) in *. set (r2 := r / 2) in *.
  set (h := highlight_r S) in *. set (ds := dot_size S) in *.
  elem_cases Hsh; cbn in Hp; elem_cases Hp;
    (split; cbn [fst snd];
     first [ apply polar_between; cbn; lia | apply int_between; lia ]).
Qed.

Lemma drawing_on_canvas_witness :
  0 <= 512 < 2 ^ 31 /\
  on_canvas 512 (Polar 256 128 Cos 315 30, Polar 256 128 Sin 315 30).
Proof.
  assert (H1 : 0 <= 512 < 2 ^ 31) by (split; [discriminate|reflexivity]).
  split; [exact H1|].
  destruct (Simple.draw_sparkle_star all_fine 512 None (State empty_disk [] [] []))
    as [im s'|e s'|code s'] eqn:Heq.
  - apply (drawing_on_canvas all_fine 512 _ im s' H1 Heq
             (Ellipse (Polar 256 128 Cos 315 (-30), Polar 256 128 Sin 315 (-30))
                      (Polar 256 128 Cos 315 30, Polar 256 128 Sin 315 30)
                      Simple.gold_color)).
    + vm_compute in Heq. injection Heq as <- _. vm_compute. elem_solve.
    + right. left.
  - vm_compute in Heq. discriminate Heq.
  - vm_compute in Heq. discriminate Heq.
Defined.

(** evaluate [draw_sparkle_star] whatever the size and the image given; the
    result is kept as [r] *)
Ltac draw_all raises :=
  py_cbn;
  repeat first
    [ run_step raises
    | match goal with
      | |- context [(?S <? 0) || (?S <? 0)] =>
          destruct (S <? 0) eqn:?; py_cbn
      end ].

(** X5: the image [draw_sparkle_star] returns has the dimensions of the
    canvas it drew on, the image passed in or else a new [size] x [size]
    one, and involves no resampling the canvas did not.  Six shapes were
    added to it, in this order: the star polygon in the main colour, the
    white highlight, and four gold dots; so the highlight covers the star
    and the dots come last. *)
Theorem draw_sparkle_star_image (raises : call -> bool) (S : Z)
    (given : option image) (s : state) (im : image) (s' : state) :
  Simple.draw_sparkle_star raises S given s = Ok im s' ->
  let canvas := match given with
                | Some im0 => im0
                | None => New S S (RGBA 0 0 0 0)
                end in
  width im = width canvas /\
  height im = height canvas /\
  never_resized im = never_resized canvas /\
  exists new,
    drawn_shapes im = drawn_shapes canvas ++ new /\
    head new = Some (Polygon (star_points S) Simple.main_color Simple.main_color) /\
    map fill_of new
    = [Simple.main_color; Simple.white; Simple.gold_color; Simple.gold_color;
       Simple.gold_color; Simple.gold_color].
Proof.
  destruct given as [im0|]; draw_all raises; try discriminate.
  all: intros Heq; injection Heq as <- _.
  all: repeat match goal with x := _ : image |- _ => subst x end.
  all: cbn [width height never_resized drawn_shapes].
  all: split; [reflexivity|]; split; [reflexivity|]; split; [reflexivity|].
  all: rewrite <- ?app_assoc; cbn [app]; eexists; split; [reflexivity|].
  all: split; reflexivity.
Qed.

Lemma draw_sparkle_star_image_witness :
  match Simple.draw_sparkle_star all_fine 64 None (State empty_disk [] [] []) with
  | Ok im _ => width im = 64
  | _ => False
  end.
Proof.
  destruct (Simple.draw_sparkle_star all_fine 64 None (State empty_disk [] [] []))
    as [im s'|e s'|code s'] eqn:Heq.
  - exact (proj1 (draw_sparkle_star_image all_fine 64 None _ im s' Heq)).
  - vm_compute in Heq. discriminate Heq.
  - vm_compute in Heq. discriminate Heq.
Defined.

(** X6: drawing touches neither the disk nor the console.  However
    [draw_sparkle_star] ends, the files, the directories, standard output
    and standard error are as before; it attempted at most eight calls, all
    of them calls that make or draw on an image, and none that makes an
    image when one was passed in; and it never exits the process. *)
Theorem draw_sparkle_star_effects (raises : call -> bool) (S : Z)
    (given : option image) (s : state) :
  let r := Simple.draw_sparkle_star raises S given s in
  fs (state_of r) = fs s /\
  stdout (state_of r) = stdout s /\
  stderr (state_of r) = stderr s /\
  (exists calls,
     trace (state_of r) = trace s ++ calls /\
     (length calls <= 8)%nat /\
     Forall (fun c => is_drawing c = true) calls /\
     (given <> None -> ImageNew S S ∉ calls)) /\
  (forall code s', r <> Exit code s').
Proof.
  intros r. assert (Hr : Simple.draw_sparkle_star raises S given s = r)
    by reflexivity.
  clearbody r. revert Hr.
  destruct given as [im0|]; draw_all raises.
  all: intros <-; cbn [state_of fs stdout stderr trace].
  all: split; [reflexivity|]; split; [reflexivity|]; split; [reflexivity|].
  all: (split; [|intros ? ?; discriminate]).
  all: rewrite <- ?app_assoc; cbn [app]; eexists; split; [reflexivity|].
  all: split; [cbn; lia|].
  all: split; [repeat constructor|].
  all: intros Hg; try (exfalso; apply Hg; reflexivity).
  all: intros Hin; elem_cases Hin.
Qed.

(** ** Strings and paths *)

Lemma string_app_cons (c : Ascii.ascii) (a b : string) :
  String c a +:+ b = String c (a +:+ b).
Proof. reflexivity. Qed.

Lemma string_length_app (a b : string) :
  String.length (a +:+ b) = (String.length a + String.length b)%nat.
Proof.
  induction a as [|c a IH]; [reflexivity|].
  rewrite string_app_cons. cbn. rewrite IH. reflexivity.
Qed.

Lemma substring_skip (pre t : string) (m : nat) :
  substring (String.length pre) m (pre +:+ t) = substring 0 m t.
Proof.
  induction pre as [|c pre IH]; [reflexivity|].
  rewrite string_app_cons. cbn. exact IH.
Qed.

Lemma substring_whole (t : string) : substring 0 (String.length t) t = t.
Proof. induction t as [|c t IH]; cbn; [reflexivity|]. rewrite IH. reflexivity. Qed.

Lemma substring_split (s : string) (a : nat) :
  (a <= String.length s)%nat ->
  s = substring 0 a s +:+ substring a (String.length s - a) s.
Proof.
  revert a. induction s as [|c s IH]; intros a Ha.
  - cbn in Ha. assert (a = 0%nat) as -> by lia. reflexivity.
  - destruct a as [|a].
    + cbn. rewrite substring_whole. reflexivity.
    + cbn in Ha. cbn [substring String.length Nat.sub].
      rewrite string_app_cons, <- IH by lia. reflexivity.
Qed.

(** [s.endswith(suffix)] holds exactly of the strings that are some prefix
    followed by the suffix *)
Lemma endswith_spec (s suffix : string) :
  endswith s suffix = true <-> exists stem, s = stem +:+ suffix.
Proof.
  unfold endswith. rewrite andb_true_iff, Nat.leb_le, String.eqb_eq. split.
  - intros [Hle Heq].
    exists (substring 0 (String.length s - String.length suffix) s).
    pose proof (substring_split s (String.length s - String.length suffix)
                  ltac:(lia)) as H.
    replace (String.length s - (String.length s - String.length suffix))%nat
      with (String.length suffix) in H by lia.
    rewrite Heq in H. exact H.
  - intros [stem ->]. rewrite string_length_app. split; [lia|].
    replace (String.length stem + String.length suffix - String.length suffix)%nat
      with (String.length stem) by lia.
    rewrite substring_skip. apply substring_whole.
Qed.

(** ** One turn of the loops, for any table entry *)

(** the state after [generate] of the vector variant, when neither of its
    calls raises *)
Lemma vector_generate_ok (raises : call -> bool) (base : image)
    (filename : string) (w h : Z) (s : state) :
  let path := Vector.PUBLIC_DIR </> filename in
  let ico := endswith filename ".ico" in
  let fmt := if ico then ICO else PNG in
  raises (Resize w h) = false ->
  raises (Save path fmt) = false ->
  Vector.generate raises base (filename, (w, h)) s
  = Ok tt
      (State
         (Disk (<[path := Encoded fmt (resized base w h) (negb ico)
                            (if ico then Some [(w, h)] else None)]>
                  (files (fs s)))
               (dirs (fs s)))
         (stdout s ++ [Generated filename w h])
         (stderr s)
         (trace s ++ [Resize w h; Save path fmt])).
Proof.
  intros path ico fmt Hr Hs. subst path ico fmt.
  unfold Vector.generate.
  cbn [bind resize]. rewrite (attempt_ok raises _ s Hr). cbn [ret].
  destruct (endswith filename ".ico"); cbn [negb] in *;
    rewrite (save_ok raises _ _ _ _ _ _ Hs); cbn; rewrite <- app_assoc;
    reflexivity.
Qed.

(** X7: one turn of the vector variant's loop, for any table entry and
    base image.  When neither the resize nor the save raises, the turn ends
    normally; the file [PUBLIC_DIR / filename] holds what [resize] returned
    for the entry's width and height, in ICO format exactly when the file
    name ends in [.ico] and else as an optimized PNG; opening that file
    gives back an image of those dimensions; every other file and every
    directory is as before; and one line was printed. *)
Theorem vector_generate_writes (raises : call -> bool) (base : image)
    (filename : string) (w h : Z) (s : state) :
  let path := Vector.PUBLIC_DIR </> filename in
  raises (Resize w h) = false ->
  (forall fmt, raises (Save path fmt) = false) ->
  exists s',
    Vector.generate raises base (filename, (w, h)) s = Ok tt s' /\
    (exists fmt opt sizes,
       files (fs s') !! path
       = Some (Encoded fmt (resized base w h) opt sizes) /\
       (fmt = ICO <-> exists stem, filename = stem +:+ ".ico") /\
       (fmt = ICO -> opt = false /\ sizes = Some [(w, h)]) /\
       (fmt = PNG -> opt = true /\ sizes = None)) /\
    (forall im s'', Image_open raises path s' = Ok im s'' ->
       width im = w /\ height im = h) /\
    (forall p, p <> path -> files (fs s') !! p = files (fs s) !! p) /\
    dirs (fs s') = dirs (fs s) /\
    stdout s' = stdout s ++ [Generated filename w h].
Proof.
  intros path Hr Hs. eexists. split.
  { apply vector_generate_ok; [exact Hr|apply Hs]. }
  cbn [fs files dirs stdout]. fold path.
  split; [|split; [|split; [|split; reflexivity]]].
  - do 3 eexists. split; [apply lookup_insert_eq|]. split; [|split].
    + rewrite <- endswith_spec. destruct (endswith filename ".ico");
        split; intros H; try reflexivity; discriminate H.
    + destruct (endswith filename ".ico"); intros H; try discriminate H.
      split; reflexivity.
    + destruct (endswith filename ".ico"); intros H; try discriminate H.
      split; reflexivity.
  - intros im s''. unfold Image_open. cbn [bind get_fs fs files].
    destruct (bool_cases (raises (Open path))) as [E|E].
    + rewrite (attempt_raises raises _ _ E). discriminate.
    + rewrite (attempt_ok raises _ _ E). cbn. rewrite lookup_insert_eq.
      cbn. intros H. injection H as <- _.
      split; [apply width_resized|apply height_resized].
  - intros p Hp. apply lookup_insert_ne. congruence.
Qed.

Lemma vector_generate_writes_witness :
  all_fine (Resize 32 32) = false /\
  (forall fmt, all_fine (Save (Vector.PUBLIC_DIR </> "icons/tile.png") fmt) = false) /\
  exists s',
    Vector.generate all_fine (Rasterized "<svg/>" 512 512)
      ("icons/tile.png", (32, 32)) (State empty_disk [] [] [])
    = Ok tt s'.
Proof.
  assert (H1 : all_fine (Resize 32 32) = false) by reflexivity.
  assert (H2 : forall fmt,
             all_fine (Save (Vector.PUBLIC_DIR </> "icons/tile.png") fmt) = false)
    by (intros fmt; reflexivity).
  split; [exact H1|]. split; [exact H2|].
  destruct (vector_generate_writes all_fine (Rasterized "<svg/>" 512 512)
              "icons/tile.png" 32 32 (State empty_disk [] [] []) H1 H2)
    as (s' & Hs' & _).
  exists s'. exact Hs'.
Defined.



(** for instance: the procedural variant run over the icons of an earlier
    run, when the 192x192 file cannot be written to the end, loses that
    icon, and keeps the one it had not come to *)
Lemma failed_save_loses_the_icon :
  let d1 := fs (final (Simple.run all_fine empty_disk)) in
  let o := Simple.run write_fails_at_192 d1 in
  exit_code o = 1 /\
  (exists im opt,
     files d1 !! "public/icons/icon-192x192.png"
     = Some (Encoded PNG im opt None) /\
     files (fs (final o)) !! "public/icons/icon-192x192.png"
     = Some (Partial PNG im)) /\
  files (fs (final o)) !! "public/icons/apple-touch-icon.png"
  = files d1 !! "public/icons/apple-touch-icon.png".
Proof.
  split; [reflexivity|]. split; [|vm_compute; reflexivity].
  do 2 eexists. split; vm_compute; reflexivity.
Qed.

(** ** The loop over a table *)

(** a loop over two lists in a row is the loop over the first followed, if
    it ends normally, by the loop over the second *)
Lemma for_each_app {X} (l1 l2 : list X) (body : X -> M unit) (s : state) :
  for_each (l1 ++ l2) body s
  = match for_each l1 body s with
    | Ok _ s1 => for_each l2 body s1
    | Raise e s1 => Raise e s1
    | Exit c s1 => Exit c s1
    end.
Proof.
  revert s. induction l1 as [|x l1 IH]; intros s; [reflexivity|].
  cbn [app for_each bind]. destruct (body x s) as [[] s1|e s1|c s1];
    [apply IH|reflexivity|reflexivity].
Qed.



(** X11: the vector variant's loop stops at the first entry that fails.
    When the entries before it are generated without an exception and its
    resize raises, the loop raises that exception from the state the
    earlier entries left, whatever entries come after it in the table: they
    are not attempted, and the earlier files stay. *)
Theorem vector_table_stops_at_failure (raises : call -> bool) (base : image)
    (before : list (string * (Z * Z))) (filename : string) (w h : Z)
    (s : state) :
  (forall f w' h', (f, (w', h')) ∈ before ->
     raises (Resize w' h') = false /\
     forall fmt, raises (Save (Vector.PUBLIC_DIR </> f) fmt) = false) ->
  raises (Resize w h) = true ->
  exists s1,
    for_each before (Vector.generate raises base) s = Ok tt s1 /\
    forall after,
      for_each (before ++ (filename, (w, h)) :: after)
        (Vector.generate raises base) s
      = Raise (Raised (Resize w h))
          (State (fs s1) (stdout s1) (stderr s1) (trace s1 ++ [Resize w h])).
Proof.
  intros Hok Hfail.
  assert (Hbefore : exists s1,
            for_each before (Vector.generate raises base) s = Ok tt s1).
  { clear Hfail. revert s.
    induction before as [|[f [w' h']] before IH]; intros s.
    - exists s. reflexivity.
    - destruct (Hok f w' h' ltac:(left)) as [Hr Hs].
      cbn [for_each bind].
      rewrite (vector_generate_ok raises base f w' h' s Hr (Hs _)).
      apply IH. intros f0 w0 h0 Hin. apply Hok. right. exact Hin. }
  destruct Hbefore as [s1 Hs1]. exists s1. split; [exact Hs1|].
  intros after. rewrite for_each_app, Hs1.
  cbn [for_each bind]. unfold Vector.generate. cbn [bind resize].
  rewrite (attempt_raises raises _ _ Hfail). reflexivity.
Qed.

Lemma vector_table_stops_at_failure_witness :
  resize_32_fails (Resize 32 32) = true /\
  exists s1,
    for_each [("a.png", (16, 16))]
      (Vector.generate resize_32_fails (Rasterized "<svg/>" 512 512))
      (State empty_disk [] [] [])
    = Ok tt s1.
Proof.
  assert (H1 : forall f w' h', (f, (w', h')) ∈ [("a.png", (16, 16))] ->
             resize_32_fails (Resize w' h') = false /\
             forall fmt,
               resize_32_fails (Save (Vector.PUBLIC_DIR </> f) fmt) = false).
  { intros f w' h' Hin. apply list_elem_of_singleton in Hin.
    injection Hin as -> -> ->. split; [reflexivity|intros fmt; reflexivity]. }
  assert (H2 : resize_32_fails (Resize 32 32) = true) by reflexivity.
  split; [exact H2|].
  destruct (vector_table_stops_at_failure resize_32_fails
              (Rasterized "<svg/>" 512 512) [("a.png", (16, 16))]
              "b.png" 32 32 (State empty_disk [] [] []) H1 H2)
    as (s1 & Hs1 & _).
  exists s1. exact Hs1.
Defined.

(** ** The closing report *)

(** X12: the closing report of the vector variant never changes the disk,
    and skips a file that does not exist instead of failing on it: for a
    missing path nothing is printed and no [stat] is attempted.  For a path
    that exists, when the [stat] does not raise, the line printed reports
    what the disk holds at that path. *)
Theorem vector_report_behaviour (raises : call -> bool) (filename : string)
    (s : state) :
  let path := Vector.PUBLIC_DIR </> filename in
  let r := Vector.report raises filename s in
  fs (state_of r) = fs s /\
  (path_exists (fs s) path = false ->
   r = Ok tt (State (fs s) (stdout s) (stderr s) (trace s ++ [Exists path]))) /\
  (path_exists (fs s) path = true -> raises (Stat path) = false ->
   r = Ok tt (State (fs s)
                (stdout s ++ [Report filename (files (fs s) !! path)])
                (stderr s)
                (trace s ++ [Exists path; Stat path]))).
Proof.
  intros path r. subst r. unfold Vector.report. fold path.
  cbn [bind exists_ log get_fs ret fs stdout stderr trace].
  destruct (path_exists (fs s) path) eqn:Hex.
  - cbn [bind stat get_fs fs].
    destruct (bool_cases (raises (Stat path))) as [E|E].
    + rewrite (attempt_raises raises _ _ E). cbn.
      split; [reflexivity|]. split; [discriminate|]. congruence.
    + rewrite (attempt_ok raises _ _ E). cbn. rewrite Hex. cbn.
      split; [destruct (fs s); reflexivity|]. split; [discriminate|].
      intros _ _. rewrite <- app_assoc. destruct (fs s); reflexivity.
  - cbn. split; [reflexivity|]. split; [|discriminate].
    intros _. reflexivity.
Qed.

Lemma vector_report_behaviour_witness :
  path_exists empty_disk (Vector.PUBLIC_DIR </> "favicon.ico") = false /\
  Vector.report all_fine "favicon.ico" (State empty_disk [] [] [])
  = Ok tt (State empty_disk [] [] [Exists "public/favicon.ico"]).
Proof.
  assert (H : path_exists (fs (State empty_disk [] [] []))
                (Vector.PUBLIC_DIR </> "favicon.ico") = false) by reflexivity.
  split; [exact H|].
  exact (proj1 (proj2 (vector_report_behaviour all_fine "favicon.ico"
                         (State empty_disk [] [] [])) ) H).
Defined.

(** ** Every run *)

(** a file away from the outputs and the temporary file, in a map built by
    insertions and deletions there *)
Ltac frame_solve Hp Hne :=
  rewrite !not_elem_of_cons in Hp;
  destruct Hp as (? & ? & ? & ? & _);
  repeat first [ rewrite lookup_delete_ne by congruence
               | rewrite lookup_insert_ne by congruence
               | rewrite lookup_spoil_ne by congruence ];
  reflexivity.

Ltac dirs_solve :=
  first [ split; [reflexivity|apply union_subseteq_r]
        | rewrite dirs_made; split; [apply union_subseteq_r|reflexivity] ].

(** X14: what a run may touch, however it goes.  No run of either variant
    changes a file other than the four outputs and the temporary file; the
    procedural variant leaves that one alone too; the vector source is
    never modified.  No directory is removed, and the only directories
    added are [public] and [public/icons]. *)
Theorem run_frame (v : variant) (raises : call -> bool) (d : disk) :
  let o := run v raises d in
  (forall p, p ∉ outputs -> p <> Vector.temp_png ->
     files (fs (final o)) !! p = files d !! p) /\
  (v = SimpleVariant ->
   files (fs (final o)) !! Vector.temp_png = files d !! Vector.temp_png) /\
  files (fs (final o)) !! Vector.SVG_SOURCE = files d !! Vector.SVG_SOURCE /\
  dirs d ⊆ dirs (fs (final o)) /\
  dirs (fs (final o)) ⊆ {["public"; "public/icons"]} ∪ dirs d.
Proof.
  assert (Hout : outputs = ["public/favicon.ico";
                            "public/icons/apple-touch-icon.png";
                            "public/icons/icon-192x192.png";
                            "public/icons/icon-512x512.png"]) by reflexivity.
  assert (Htmp : Vector.temp_png = "public/temp_icon.png") by reflexivity.
  assert (Hsvg : Vector.SVG_SOURCE = "public/favicon.svg") by reflexivity.
  rewrite Hout, Htmp, Hsvg. clear Hout Htmp Hsvg.
  destruct v.
  - run_cases raises.
    all: split; [intros p Hp Hne; frame_solve Hp Hne|].
    all: split; [intros Hv; discriminate Hv|].
    all: split; [fs_simpl; first [reflexivity|congruence]|dirs_solve].
  - run_cases raises.
    all: split; [intros p Hp Hne; frame_solve Hp Hne|].
    all: split; [intros _; fs_simpl; reflexivity|].
    all: split; [fs_simpl; first [reflexivity|congruence]|dirs_solve].
Qed.

(** the files of the size table are on disk with its dimensions *)
Ltac icons_solve :=
  let Hin := fresh "Hin" in
  intros ? ? ? Hin; unfold Vector.SIZES in Hin;
  elem_cases Hin;
  match goal with E : (_, _) = (_, _) |- _ => injection E as -> -> -> end;
  unfold Vector.PUBLIC_DIR; norm_strings; fs_simpl;
  do 4 eexists; (split; [reflexivity|split; reflexivity]).

(** X15: what the exit status tells.  The status of any run is 0 or 1.
    Status 0 guarantees the four files of the size table on disk with the
    table's dimensions, the line of success printed, no line of failure and
    nothing on standard error.  Status 1 is never silent: the last line
    printed is a line of failure, or standard error has a traceback. *)
Theorem exit_status_meaning (v : variant) (raises : call -> bool) (d : disk) :
  let o := run v raises d in
  (exit_code o = 0 \/ exit_code o = 1) /\
  (exit_code o = 0 ->
   (forall filename w h, (filename, (w, h)) ∈ Vector.SIZES ->
      exists fmt im opt sz,
        files (fs (final o)) !! (Vector.PUBLIC_DIR </> filename)
        = Some (Encoded fmt im opt sz) /\
        width im = w /\ height im = h) /\
   AllGenerated ∈ stdout (final o) /\
   Forall (fun l => is_failure_line l = false) (stdout (final o)) /\
   stderr (final o) = []) /\
  (exit_code o = 1 ->
   (exists l, last (stdout (final o)) = Some l /\ is_failure_line l = true) \/
   stderr (final o) <> []).
Proof.
  destruct v.
  - run_cases raises.
    all: split; [first [left; reflexivity|right; reflexivity]|].
    all: split; [intros Hx; try discriminate Hx
                |intros Hx; try discriminate Hx;
                 first [ left; eexists; split; reflexivity
                       | right; discriminate ]].
    all: split; [icons_solve|]; split; [elem_solve|];
         split; [repeat constructor|reflexivity].
  - run_cases raises.
    all: split; [first [left; reflexivity|right; reflexivity]|].
    all: split; [intros Hx; try discriminate Hx
                |intros Hx; try discriminate Hx;
                 first [ left; eexists; split; reflexivity
                       | right; discriminate ]].
    all: split; [icons_solve|]; split; [elem_solve|];
         split; [repeat constructor|reflexivity].
Qed.

Lemma exit_status_meaning_witness :
  exit_code (run SimpleVariant all_fine empty_disk) = 0 /\
  stderr (final (run SimpleVariant all_fine empty_disk)) = [].
Proof.
  assert (H : exit_code (run SimpleVariant all_fine empty_disk) = 0)
    by reflexivity.
  split; [exact H|].
  exact (proj2 (proj2 (proj2
    (proj1 (proj2 (exit_status_meaning SimpleVariant all_fine empty_disk)) H)))).
Defined.

(** what a progress line says about the disk *)
Ltac line_solve :=
  cbn beta iota;
  unfold Vector.temp_png, Vector.PUBLIC_DIR; norm_strings;
  fs_simpl;
  first [ exact I
        | reflexivity
        | split; [reflexivity|]; do 4 eexists;
          (split; [reflexivity|split; reflexivity])
        | do 4 eexists; (split; [reflexivity|split; reflexivity])
        | split; [eexists; reflexivity|reflexivity] ].

(** X16: the progress lines are truthful about the disk the run leaves,
    even when the run fails later.  A line saying a file was generated
    means the file is there with the dimensions the line gives, and a size
    printed is that of the file's final content; a line of the closing
    report names a file that exists and gives its content's size; the line
    saying the temporary files were cleaned up means the temporary file is
    gone. *)
Theorem progress_lines_truthful (v : variant) (raises : call -> bool)
    (d : disk) (l : line) :
  let o := run v raises d in
  l ∈ stdout (final o) ->
  match l with
  | Generated filename w h =>
      exists fmt im opt sz,
        files (fs (final o)) !! (Vector.PUBLIC_DIR </> filename)
        = Some (Encoded fmt im opt sz) /\
        width im = w /\ height im = h
  | GeneratedKB filename w h c =>
      c = files (fs (final o)) !! (Vector.PUBLIC_DIR </> filename) /\
      exists fmt im opt sz,
        c = Some (Encoded fmt im opt sz) /\ width im = w /\ height im = h
  | Report filename c =>
      is_Some c /\
      c = files (fs (final o)) !! (Vector.PUBLIC_DIR </> filename)
  | CleanedUp => files (fs (final o)) !! Vector.temp_png = None
  | _ => True
  end.
Proof.
  destruct v.
  - run_cases raises. all: intros Hl; elem_cases Hl; line_solve.
  - run_cases raises. all: intros Hl; elem_cases Hl; line_solve.
Qed.

Lemma progress_lines_truthful_witness :
  Generated "icons/icon-512x512.png" 512 512
    ∈ stdout (final (run SimpleVariant disk_full_at_192 empty_disk)) /\
  is_Some (files (fs (final (run SimpleVariant disk_full_at_192 empty_disk)))
             !! "public/icons/icon-512x512.png").
Proof.
  assert (H : Generated "icons/icon-512x512.png" 512 512
                ∈ stdout (final (run SimpleVariant disk_full_at_192 empty_disk))).
  { vm_compute. elem_solve. }
  split; [exact H|].
  destruct (progress_lines_truthful SimpleVariant disk_full_at_192 empty_disk
              (Generated "icons/icon-512x512.png" 512 512) H)
    as (fmt & im & opt & sz & Hf & _).
  exists (Encoded fmt im opt sz). exact Hf.
Defined.

(** X17: the line of success and the exit status.  In the procedural
    variant the line "All icons generated successfully!" is printed exactly
    by the runs that exit with status 0.  In the vector variant it is
    printed before the closing report: every run that printed it has
    written the four files and unlinked the temporary file, but it may
    still exit with status 1, and then the call that failed is a [stat] of
    the closing report. *)
Theorem success_banner (v : variant) (raises : call -> bool) (d : disk) :
  let o := run v raises d in
  (exit_code o = 0 -> AllGenerated ∈ stdout (final o)) /\
  (AllGenerated ∈ stdout (final o) ->
   Forall (fun p => is_Some (files (fs (final o)) !! p)) outputs /\
   match v with
   | SimpleVariant => exit_code o = 0
   | VectorVariant =>
       Unlink Vector.temp_png ∈ trace (final o) /\
       (exit_code o = 1 ->
        exists p, last (trace (final o)) = Some (Stat p) /\
                  raises (Stat p) = true)
   end).
Proof.
  assert (Hout : outputs = ["public/favicon.ico";
                            "public/icons/apple-touch-icon.png";
                            "public/icons/icon-192x192.png";
                            "public/icons/icon-512x512.png"]) by reflexivity.
  assert (Htmp : Vector.temp_png = "public/temp_icon.png") by reflexivity.
  rewrite Hout, Htmp. clear Hout Htmp.
  destruct v.
  - run_cases raises.
    all: split; [intros Hx; first [discriminate Hx|elem_solve]|].
    all: intros Hb; try (elem_cases Hb; fail).
    all: split; [repeat (constructor; [fs_simpl; eexists; reflexivity|]);
                 constructor|].
    all: split; [elem_solve|].
    all: intros Hx; try discriminate Hx.
    all: eexists; split; [reflexivity|assumption].
  - run_cases raises.
    all: split; [intros Hx; first [discriminate Hx|elem_solve]|].
    all: intros Hb; try (elem_cases Hb; fail).
    all: split; [repeat (constructor; [fs_simpl; eexists; reflexivity|]);
                 constructor|].
    all: reflexivity.
Qed.

Lemma success_banner_witness :
  AllGenerated ∈ stdout (final (run VectorVariant stat_fails disk_with_source)) /\
  exit_code (run VectorVariant stat_fails disk_with_source) = 1 /\
  Forall (fun p => is_Some (files (fs (final (run VectorVariant stat_fails
                                                disk_with_source))) !! p))
    outputs.
Proof.
  assert (H : AllGenerated
                ∈ stdout (final (run VectorVariant stat_fails disk_with_source))).
  { vm_compute. elem_solve. }
  split; [exact H|]. split; [reflexivity|].
  exact (proj1 (proj2 (success_banner VectorVariant stat_fails disk_with_source) H)).
Defined.

(** X19: where a run ever tries to write.  In any run of either variant no
    call is attempted twice; every save targets one of the four paths of
    the size table; the only file ever unlinked, and the only file the
    rasterizer writes, is the temporary file; and the only directory made
    is [public/icons] with its parent. *)
Theorem calls_are_confined (v : variant) (raises : call -> bool) (d : disk) :
  let o := run v raises d in
  NoDup (trace (final o)) /\
  (forall p fmt, Save p fmt ∈ trace (final o) -> p ∈ outputs) /\
  (forall p, Unlink p ∈ trace (final o) -> p = Vector.temp_png) /\
  (forall url p w h, Svg2png url p w h ∈ trace (final o) ->
     url = Vector.SVG_SOURCE /\ p = Vector.temp_png) /\
  (forall p, Mkdir p ∈ trace (final o) -> p = "public/icons").
Proof.
  destruct v.
  - run_cases raises.
    all: split; [nodup_solve|].
    all: split; [intros ? ? H; elem_cases H;
                 match goal with E : _ = _ |- _ => injection E as -> -> end;
                 vm_compute; elem_solve|].
    all: split; [intros ? H; elem_cases H;
                 match goal with E : _ = _ |- _ => injection E as -> end;
                 reflexivity|].
    all: split; [intros ? ? ? ? H; elem_cases H;
                 match goal with E : _ = _ |- _ => injection E as -> -> -> -> end;
                 split; reflexivity|].
    all: intros ? H; elem_cases H;
         match goal with E : _ = _ |- _ => injection E as -> end;
         reflexivity.
  - run_cases raises.
    all: split; [nodup_solve|].
    all: split; [intros ? ? H; elem_cases H;
                 match goal with E : _ = _ |- _ => injection E as -> -> end;
                 vm_compute; elem_solve|].
    all: split; [intros ? H; elem_cases H;
                 match goal with E : _ = _ |- _ => injection E as -> end;
                 reflexivity|].
    all: split; [intros ? ? ? ? H; elem_cases H;
                 match goal with E : _ = _ |- _ => injection E as -> -> -> -> end;
                 split; reflexivity|].
    all: intros ? H; elem_cases H;
         match goal with E : _ = _ |- _ => injection E as -> end;
         reflexivity.
Qed.
